(** * Laboratory equipment manager: store, access gate and view filters

    A shallow embedding of [app/data.py] (the in-memory [DataStore]) and of
    the request handlers of [app/main.py] whose behaviour the specification
    describes: [get_current_user], [require_login], [require_staff],
    [require_admin], [login_api], [equipment_list] and [bookings_page] with
    its inner [filter_by_tab].

    Python strings are [string]s (their UTF-8 bytes: equality and the [in]
    operator on code points and on the encoding agree), Python integers are
    [Z], dictionaries read through [.get] are [gmap]s, and the set of logged
    booking ids is a [gset].  A handler that can raise returns a [result]. *)

From Stdlib Require Import ZArith Ascii String Sorted.
From stdpp Require Import base option list sorting strings gmap.

Local Open Scope Z_scope.

(** ** Exceptions *)

Inductive exn := ValueError.

Inductive result (A : Type) :=
  | Ok (a : A)
  | Raise (e : exn).
Arguments Ok {A} a.
Arguments Raise {A} e.

#[global] Instance result_ret : MRet result := @Ok.
#[global] Instance result_bind : MBind result := λ A B f m,
  match m with
  | Ok a => f a
  | Raise e => Raise e
  end.
#[global] Instance result_fmap : FMap result := λ A B f m,
  match m with
  | Ok a => Ok (f a)
  | Raise e => Raise e
  end.

(** ** Python built-ins

    [str.lower], [int] applied to a string and [datetime.fromisoformat(..).year]
    belong to the Python runtime, not to the repository.  The handlers are
    defined over any implementation of them; [None] stands for the
    [ValueError] that [int] and [fromisoformat] raise on a string they do not
    accept. *)

Class Builtins := {
  str_lower : string → string;
  int_of_str : string → option Z;
  fromisoformat_year : string → option Z;
}.

(** The [in] operator on two strings: [str_in s t] is Python's [s in t]. *)
Fixpoint str_in (s t : string) : bool :=
  String.prefix s t ||
  match t with
  | EmptyString => false
  | String _ t' => str_in s t'
  end.

(** What [in] decides: [s] occurs as a contiguous run of [t]. *)
Definition is_substring (s t : string) : Prop :=
  ∃ pre post, t = pre +:+ s +:+ post.

(** ** Data model *)

(** Modelled from the spec: [app/models.py] is not among the sources; the
    three enumerations below are the ones section 3 of the specification
    lists.  Each member compares equal to the string of its name, which is
    what the handlers rely on when they compare a field with a literal. *)
Inductive UserRole := STUDENT | STAFF | ADMIN.

Definition UserRole_value (r : UserRole) : string :=
  match r with
  | STUDENT => "STUDENT"
  | STAFF => "STAFF"
  | ADMIN => "ADMIN"
  end.

Inductive EquipmentStatus :=
  AVAILABLE | BOOKED | IN_USE | BROKEN | MAINTENANCE | LIQUIDATED.

Definition EquipmentStatus_value (s : EquipmentStatus) : string :=
  match s with
  | AVAILABLE => "AVAILABLE"
  | BOOKED => "BOOKED"
  | IN_USE => "IN_USE"
  | BROKEN => "BROKEN"
  | MAINTENANCE => "MAINTENANCE"
  | LIQUIDATED => "LIQUIDATED"
  end.

Inductive BookingStatus :=
  PENDING | APPROVED | ACTIVE | COMPLETED | CANCELLED | REJECTED.

Definition BookingStatus_value (s : BookingStatus) : string :=
  match s with
  | PENDING => "PENDING"
  | APPROVED => "APPROVED"
  | ACTIVE => "ACTIVE"
  | COMPLETED => "COMPLETED"
  | CANCELLED => "CANCELLED"
  | REJECTED => "REJECTED"
  end.

(** Modelled from the spec: the record types of [app/models.py], with the
    fields the handlers read or [app/data.py] sets. *)
Module User.
Record t := mk {
  id : string;
  name : string;
  role : UserRole;
  department : string;
  violationCount : nat;
  isLocked : bool;
  password : string;
}.
End User.

Module Equipment.
Record t := mk {
  id : string;
  name : string;
  code : string;
  usingDepartment : option string;
  managerId : string;
  location : string;
  status : EquipmentStatus;
}.
End Equipment.

Module Booking.
Record t := mk {
  id : string;
  userId : string;
  equipmentId : string;
  startTime : string;
  endTime : string;
  status : BookingStatus;
}.
End Booking.

Module UsageLog.
Record t := mk {
  id : string;
  bookingId : option string;
  equipmentId : string;
  notes : string;
}.
End UsageLog.

#[global] Instance UserRole_eq_dec : EqDecision UserRole.
Proof. solve_decision. Defined.
#[global] Instance EquipmentStatus_eq_dec : EqDecision EquipmentStatus.
Proof. solve_decision. Defined.
#[global] Instance BookingStatus_eq_dec : EqDecision BookingStatus.
Proof. solve_decision. Defined.
#[global] Instance User_eq_dec : EqDecision User.t.
Proof. solve_decision. Defined.
#[global] Instance Equipment_eq_dec : EqDecision Equipment.t.
Proof. solve_decision. Defined.
#[global] Instance Booking_eq_dec : EqDecision Booking.t.
Proof. solve_decision. Defined.
#[global] Instance UsageLog_eq_dec : EqDecision UsageLog.t.
Proof. solve_decision. Defined.

(** ** Entity store ([app/data.py]) *)

Record DataStore := {
  users : list User.t;
  equipment : list Equipment.t;
  bookings : list Booking.t;
  logs : list UsageLog.t;
}.

(** [next((u for u in self.users if u.id == user_id), None)] *)
Definition get_user (db : DataStore) (user_id : string) : option User.t :=
  head (filter (λ u, User.id u = user_id) (users db)).

(** [next((e for e in self.equipment if e.id == eq_id), None)] *)
Definition get_equipment (db : DataStore) (eq_id : string) : option Equipment.t :=
  head (filter (λ e, Equipment.id e = eq_id) (equipment db)).

(** ** Requests and responses *)

Record Request := {
  cookies : gmap string string;
  query_params : gmap string string;
}.

Record RedirectResponse := {
  location : string;
  redirect_status : Z;
}.

Inductive json :=
  | JBool (b : bool)
  | JStr (s : string).

Record Cookie := {
  key : string;
  value : string;
  httponly : bool;
  samesite : string;
}.

Record JSONResponse := {
  content : list (string * json);
  status_code : Z;
  set_cookies : list Cookie;
}.

(** A page handler answers with a redirect or with a rendered template and
    the context handed to it. *)
Inductive PageResponse (C : Type) :=
  | Redirect (r : RedirectResponse)
  | TemplateResponse (template : string) (ctx : C).
Arguments Redirect {C} r.
Arguments TemplateResponse {C} template ctx.

(** ** Access control gate *)

(** [request.cookies.get("user_id")], absent or empty, resolves to nobody. *)
Definition get_current_user (db : DataStore) (request : Request) : option User.t :=
  match cookies request !! "user_id" with
  | None => None
  | Some user_id =>
      if decide (user_id = "") then None else get_user db user_id
  end.

Definition redirect_to (path : string) : RedirectResponse :=
  {| location := path; redirect_status := 302 |}.

Definition require_login (db : DataStore) (request : Request)
  : option RedirectResponse :=
  match get_current_user db request with
  | None => Some (redirect_to "/login")
  | Some _ => None
  end.

Definition require_staff (db : DataStore) (request : Request)
  : option RedirectResponse :=
  match get_current_user db request with
  | None => Some (redirect_to "/login")
  | Some user =>
      if decide (UserRole_value (User.role user) ∉ ["ADMIN"; "STAFF"])
      then Some (redirect_to "/")
      else None
  end.

Definition require_admin (db : DataStore) (request : Request)
  : option RedirectResponse :=
  match get_current_user db request with
  | None => Some (redirect_to "/login")
  | Some user =>
      if decide (UserRole_value (User.role user) ≠ "ADMIN")
      then Some (redirect_to "/")
      else None
  end.

(** ** Login *)

Definition login_success (user : User.t) : JSONResponse :=
  {| content := [("success", JBool true); ("redirect", JStr "/")];
     status_code := 200;
     set_cookies := [ {| key := "user_id"; value := User.id user;
                         httponly := true; samesite := "lax" |} ] |}.

Definition login_failure : JSONResponse :=
  {| content := [("success", JBool false);
                 ("message", JStr "Sai thông tin đăng nhập")];
     status_code := 401;
     set_cookies := [] |}.

(** [if user and user.password == password and not user.isLocked] *)
Definition login_api (db : DataStore) (user_id password : string) : JSONResponse :=
  match get_user db user_id with
  | Some user =>
      if bool_decide (User.password user = password) && negb (User.isLocked user)
      then login_success user
      else login_failure
  | None => login_failure
  end.

(** ** Query and filter layer *)

Module EquipmentListCtx.
Record t := mk {
  current_user : option User.t;
  page_title : string;
  equipment : list Equipment.t;
  search : string;
  status_filter : string;
}.
End EquipmentListCtx.

(** The dictionary [{**_to_dict(b), "equipmentName": .., "equipmentCode": ..}]
    built for every visible booking. *)
Module Enhanced.
Record t := mk {
  booking : Booking.t;
  equipmentName : string;
  equipmentCode : string;
}.
End Enhanced.

#[global] Instance Enhanced_eq_dec : EqDecision Enhanced.t.
Proof. solve_decision. Defined.

Module BookingsCtx.
Record t := mk {
  current_user : option User.t;
  page_title : string;
  bookings : list Enhanced.t;
  filtered_bookings : list Enhanced.t;
  active_tab : string;
  selected_history_year : Z;
  history_years : list Z;
  pending_count : nat;
  approved_count : nat;
  active_count : nat;
  waiting_log_count : nat;
  history_count : nat;
}.
End BookingsCtx.

(** [b.get("id")], [b.get("status")] and [b["startTime"]] on an enhanced
    booking. *)
Definition get_id (b : Enhanced.t) : string :=
  Booking.id (Enhanced.booking b).
Definition get_status (b : Enhanced.t) : string :=
  BookingStatus_value (Booking.status (Enhanced.booking b)).
Definition get_startTime (b : Enhanced.t) : string :=
  Booking.startTime (Enhanced.booking b).

(** The literal [["COMPLETED", "CANCELLED", "REJECTED"]]. *)
Definition HISTORY_STATUSES : list string :=
  ["COMPLETED"; "CANCELLED"; "REJECTED"].

(** [{getattr(l, "bookingId") for l in logs if getattr(l, "bookingId")}]:
    a booking id that is absent or empty is not collected. *)
Definition truthy_id (o : option string) : option string :=
  match o with
  | Some s => if decide (s = "") then None else Some s
  | None => None
  end.

Definition logged_ids_of (logs : list UsageLog.t) : gset string :=
  list_to_set (omap (λ l, truthy_id (UsageLog.bookingId l)) logs).

(** [sorted(s, reverse=True)] on a set of integers. *)
Definition sorted_reverse (s : gset Z) : list Z :=
  merge_sort Z.ge (elements s).

Section handlers.
Context `{Builtins}.

(** [GET /equipment] *)
Definition equipment_list (db : DataStore) (request : Request)
    (search status : string) : PageResponse EquipmentListCtx.t :=
  let items := equipment db in
  let items :=
    if decide (search ≠ "") then
      let s := str_lower search in
      filter (λ e, str_in s (str_lower (Equipment.name e))
                   || str_in s (str_lower (Equipment.code e))) items
    else items in
  let items :=
    if decide (status ≠ "ALL") then
      filter (λ e, EquipmentStatus_value (Equipment.status e) = status) items
    else items in
  TemplateResponse "equipment_list.html"
    {| EquipmentListCtx.current_user := get_current_user db request;
       EquipmentListCtx.page_title := "Thiết bị";
       EquipmentListCtx.equipment := items;
       EquipmentListCtx.search := search;
       EquipmentListCtx.status_filter := status |}.

(** [[b for b in filtered
      if datetime.fromisoformat(b["startTime"]).year == year]] *)
Fixpoint filter_start_year (year : Z) (filtered : list Enhanced.t)
    : result (list Enhanced.t) :=
  match filtered with
  | [] => Ok []
  | b :: rest =>
      match fromisoformat_year (get_startTime b) with
      | None => Raise ValueError
      | Some y =>
          kept ← filter_start_year year rest;
          Ok (if decide (y = year) then b :: kept else kept)
      end
  end.

(** The inner function of [bookings_page].  [year] is [None] for the
    default [year=None]; [if year:] is false for [None] and for [0]. *)
Definition filter_by_tab (bookings : list Enhanced.t) (tab : string)
    (logged_ids : gset string) (year : option Z) : result (list Enhanced.t) :=
  if decide (tab = "PENDING") then
    Ok (filter (λ b, get_status b = "PENDING") bookings)
  else if decide (tab = "APPROVED") then
    Ok (filter (λ b, get_status b = "APPROVED") bookings)
  else if decide (tab = "ACTIVE") then
    Ok (filter (λ b, get_status b = "ACTIVE") bookings)
  else if decide (tab = "WAITING_LOG") then
    Ok (filter (λ b, get_status b = "COMPLETED" ∧ get_id b ∉ logged_ids)
               bookings)
  else if decide (tab = "HISTORY") then
    let filtered := filter (λ b, get_status b ∈ HISTORY_STATUSES) bookings in
    match year with
    | Some y => if decide (y ≠ 0) then filter_start_year y filtered
                else Ok filtered
    | None => Ok filtered
    end
  else Ok bookings.

(** [{datetime.fromisoformat(b["startTime"]).year for b in enhanced
      if b.get("status") in ["COMPLETED", "CANCELLED", "REJECTED"]}] *)
Fixpoint history_year_set (enhanced : list Enhanced.t) : result (gset Z) :=
  match enhanced with
  | [] => Ok ∅
  | b :: rest =>
      if decide (get_status b ∈ HISTORY_STATUSES) then
        match fromisoformat_year (get_startTime b) with
        | None => Raise ValueError
        | Some y => ys ← history_year_set rest; Ok ({[ y ]} ∪ ys)
        end
      else history_year_set rest
  end.

(** [sorted({..}, reverse=True) or [datetime.now().year]] *)
Definition history_years (enhanced : list Enhanced.t) (now_year : Z)
    : result (list Z) :=
  ys ← history_year_set enhanced;
  let l := sorted_reverse ys in
  Ok (match l with [] => [now_year] | _ => l end).

(** The annotation of one booking with its equipment's name and code. *)
Definition enhance (db : DataStore) (b : Booking.t) : Enhanced.t :=
  let eq := get_equipment db (Booking.equipmentId b) in
  {| Enhanced.booking := b;
     Enhanced.equipmentName :=
       match eq with Some e => Equipment.name e | None => "Unknown" end;
     Enhanced.equipmentCode :=
       match eq with Some e => Equipment.code e | None => "" end |}.

(** [int(request.query_params.get("year", datetime.now().year))] *)
Definition selected_year_of (request : Request) (now_year : Z) : result Z :=
  match query_params request !! "year" with
  | None => Ok now_year
  | Some s =>
      match int_of_str s with
      | Some y => Ok y
      | None => Raise ValueError
      end
  end.

(** [GET /bookings]; [now_year] is [datetime.now().year]. *)
Definition bookings_page (db : DataStore) (now_year : Z) (request : Request)
    : result (PageResponse BookingsCtx.t) :=
  match get_current_user db request with
  | None => Ok (Redirect (redirect_to "/login"))
  | Some user =>
      let bookings := bookings db in
      let bookings :=
        if decide (UserRole_value (User.role user) ∉ ["ADMIN"; "STAFF"])
        then filter (λ b, Booking.userId b = User.id user) bookings
        else bookings in
      let enhanced := enhance db <$> bookings in
      let logged_booking_ids := logged_ids_of (logs db) in
      let active_tab := default "PENDING" (query_params request !! "tab") in
      selected_year ← selected_year_of request now_year;
      filtered_bookings ←
        filter_by_tab enhanced active_tab logged_booking_ids (Some selected_year);
      let all_logged_ids := logged_booking_ids in
      years ← history_years enhanced now_year;
      Ok (TemplateResponse "bookings.html"
        {| BookingsCtx.current_user := Some user;
           BookingsCtx.page_title := "Booking List";
           BookingsCtx.bookings := enhanced;
           BookingsCtx.filtered_bookings := filtered_bookings;
           BookingsCtx.active_tab := active_tab;
           BookingsCtx.selected_history_year := selected_year;
           BookingsCtx.history_years := years;
           BookingsCtx.pending_count :=
             length (filter (λ b, get_status b = "PENDING") enhanced);
           BookingsCtx.approved_count :=
             length (filter (λ b, get_status b = "APPROVED") enhanced);
           BookingsCtx.active_count :=
             length (filter (λ b, get_status b = "ACTIVE") enhanced);
           BookingsCtx.waiting_log_count :=
             length (filter (λ b, get_status b = "COMPLETED"
                                  ∧ get_id b ∉ all_logged_ids) enhanced);
           BookingsCtx.history_count :=
             length (filter (λ b, get_status b ∈ HISTORY_STATUSES) enhanced)
        |})
  end.

End handlers.

(** ** A reference implementation of the built-ins

    Used to run the handlers on concrete requests.  It follows Python on
    ASCII input: [ascii_lower] maps [A-Z] to [a-z] and leaves every other
    byte alone; [ascii_int] accepts what [int] accepts in base ten (blanks
    around, a sign, digits, single underscores between digits);
    [iso_year] accepts [YYYY-MM-DD], alone or followed by one separator
    character and [HH:MM:SS], and no other form. *)
Module Reference.

Definition lower_char (c : ascii) : ascii :=
  let n := nat_of_ascii c in
  if ((65 <=? n) && (n <=? 90))%nat then ascii_of_nat (n + 32) else c.

Fixpoint ascii_lower (s : string) : string :=
  match s with
  | EmptyString => EmptyString
  | String c s' => String (lower_char c) (ascii_lower s')
  end.

Definition is_space (c : ascii) : bool :=
  let n := nat_of_ascii c in
  (((9 <=? n) && (n <=? 13)) || ((28 <=? n) && (n <=? 32)))%nat.

Definition digit_of (c : ascii) : option Z :=
  let n := nat_of_ascii c in
  if ((48 <=? n) && (n <=? 57))%nat then Some (Z.of_nat n - 48) else None.

Fixpoint lstrip (l : list ascii) : list ascii :=
  match l with
  | c :: l' => if is_space c then lstrip l' else l
  | [] => []
  end.

Definition strip (l : list ascii) : list ascii :=
  reverse (lstrip (reverse (lstrip l))).

Fixpoint digits (l : list ascii) (acc : Z) (after_digit : bool) : option Z :=
  match l with
  | [] => if after_digit then Some acc else None
  | c :: l' =>
      match digit_of c with
      | Some d => digits l' (10 * acc + d) true
      | None =>
          if decide (c = "_"%char) then
            if after_digit then digits l' acc false else None
          else None
      end
  end.

Definition ascii_int (s : string) : option Z :=
  match strip (list_ascii_of_string s) with
  | c :: l =>
      if decide (c = "-"%char) then Z.opp <$> digits l 0 false
      else if decide (c = "+"%char) then digits l 0 false
      else digits (c :: l) 0 false
  | [] => None
  end.

Definition number (l : list ascii) : option Z :=
  foldl (λ acc c, a ← acc; d ← digit_of c; Some (10 * a + d)) (Some 0) l.

Definition is_leap (y : Z) : bool :=
  (y mod 4 =? 0) && (negb (y mod 100 =? 0) || (y mod 400 =? 0)).

Definition days_in_month (y m : Z) : Z :=
  if m =? 2 then (if is_leap y then 29 else 28)
  else if (m =? 4) || (m =? 6) || (m =? 9) || (m =? 11) then 30
  else 31.

Definition valid_time (l : list ascii) : bool :=
  match l with
  | [h1; h2; c1; m1; m2; c2; s1; s2] =>
      match number [h1; h2], number [m1; m2], number [s1; s2] with
      | Some h, Some m, Some s =>
          bool_decide (c1 = ":"%char) && bool_decide (c2 = ":"%char)
          && (h <? 24) && (m <? 60) && (s <? 60)
      | _, _, _ => false
      end
  | _ => false
  end.

Definition iso_year (s : string) : option Z :=
  match list_ascii_of_string s with
  | y1 :: y2 :: y3 :: y4 :: c1 :: m1 :: m2 :: c2 :: d1 :: d2 :: rest =>
      match number [y1; y2; y3; y4], number [m1; m2], number [d1; d2] with
      | Some y, Some m, Some d =>
          if bool_decide (c1 = "-"%char) && bool_decide (c2 = "-"%char)
             && (1 <=? y) && (1 <=? m) && (m <=? 12)
             && (1 <=? d) && (d <=? days_in_month y m)
             && match rest with
                | [] => true
                | _ :: time => valid_time time
                end
          then Some y else None
      | _, _, _ => None
      end
  | _ => None
  end.

#[global] Instance builtins : Builtins := {|
  str_lower := ascii_lower;
  int_of_str := ascii_int;
  fromisoformat_year := iso_year;
|}.

End Reference.

(** ** The seeded store of [app/data.py] *)

Definition seed_users : list User.t := [
  User.mk "adminctump" "Quản Trị Viên Hệ Thống" ADMIN "Khoa Cơ Bản" 0 false
          "adminctump";
  User.mk "u2" "Trần Thị Nhân Viên" STAFF "Phòng Lab Hóa" 0 false "123@";
  User.mk "u3" "Lê Văn Sinh Viên" STUDENT "Lớp KTPM" 0 false "123@"
].

Definition seed_equipment : list Equipment.t := [
  Equipment.mk "e1" "Kính Hiển Vi Điện Tử Olympus CX23" "KHV-001"
               (Some "Bộ môn Sinh học") "adminctump" "Lab 101" AVAILABLE;
  Equipment.mk "e2" "Máy Ly Tâm Lạnh Hettich" "MLT-002"
               None "u2" "Lab 102" MAINTENANCE
].

Definition seed : DataStore :=
  {| users := seed_users; equipment := seed_equipment;
     bookings := []; logs := [] |}.

(** A request carrying the identity cookie [uid] and the given query string. *)
Definition request_of (uid : string) (query : list (string * string)) : Request :=
  {| cookies := {[ "user_id" := uid ]}; query_params := list_to_map query |}.

Definition anonymous (query : list (string * string)) : Request :=
  {| cookies := ∅; query_params := list_to_map query |}.

(** * The other handlers of [app/main.py] *)

(** ** Application state beyond the entity lists *)

(** Modelled from the spec: [HomePageConfig] of [app/models.py], with the
    fields [home] reads among those [app/data.py] sets. *)
Module HomePageConfig.
Record t := mk {
  appName : string;
  featuredEquipmentIds : list string;
  visitorCount : Z;
}.
End HomePageConfig.

(** A JSON document, as [request.json()] returns it.  Numbers are integers
    here: no handler looks inside a number. *)
#[warnings="-register-all"]
Inductive jvalue :=
  | JNull
  | JBoolean (b : bool)
  | JInt (n : Z)
  | JString (s : string)
  | JList (l : list jvalue)
  | JDict (d : gmap string jvalue).

(** The store object [db] with the two attributes the handlers change:
    [home_config] (absent when [None]) and [inventorySessions], which
    [app/data.py] does not create ([None]: missing or [None]). *)
Record App := {
  store : DataStore;
  home_config : option HomePageConfig.t;
  inventorySessions : option (list jvalue);
}.

(** ** Home page *)

Module HomeCtx.
Record t := mk {
  current_user : option User.t;
  page_title : string;
  visit_count : Z;
  featured_equipment : list Equipment.t;
}.
End HomeCtx.

(** [GET /]: the visitor counter is incremented and the incremented value is
    shown; the featured equipment is read from the store in store order. *)
Definition home (app : App) (request : Request) : PageResponse HomeCtx.t * App :=
  let user := get_current_user (store app) request in
  let visit_count :=
    match home_config app with
    | Some cfg => HomePageConfig.visitorCount cfg
    | None => 0
    end in
  let home_cfg :=
    match home_config app with
    | Some cfg =>
        Some (HomePageConfig.mk (HomePageConfig.appName cfg)
                (HomePageConfig.featuredEquipmentIds cfg)
                (HomePageConfig.visitorCount cfg + 1))
    | None => None
    end in
  let visit_count :=
    match home_cfg with
    | Some cfg => HomePageConfig.visitorCount cfg
    | None => visit_count
    end in
  let featured_ids :=
    match home_cfg with
    | Some cfg => HomePageConfig.featuredEquipmentIds cfg
    | None => []
    end in
  let featured :=
    filter (λ e, Equipment.id e ∈ featured_ids) (equipment (store app)) in
  (TemplateResponse "index.html"
     {| HomeCtx.current_user := user;
        HomeCtx.page_title := "Trang chủ";
        HomeCtx.visit_count := visit_count;
        HomeCtx.featured_equipment := featured |},
   {| store := store app; home_config := home_cfg;
      inventorySessions := inventorySessions app |}).

(** ** Equipment detail and statistics *)

Module EquipmentDetailCtx.
Record t := mk {
  current_user : option User.t;
  page_title : string;
  item : Equipment.t;
  manager : option User.t;
  logs : list UsageLog.t;
}.
End EquipmentDetailCtx.

(** [GET /equipment/{id}] *)
Definition equipment_detail (db : DataStore) (request : Request) (id : string)
    : PageResponse EquipmentDetailCtx.t :=
  match get_equipment db id with
  | None => Redirect (redirect_to "/equipment")
  | Some item =>
      let item_logs := filter (λ l, UsageLog.equipmentId l = id) (logs db) in
      let manager := get_user db (Equipment.managerId item) in
      TemplateResponse "equipment_detail.html"
        {| EquipmentDetailCtx.current_user := get_current_user db request;
           EquipmentDetailCtx.page_title := "Chi tiết thiết bị";
           EquipmentDetailCtx.item := item;
           EquipmentDetailCtx.manager := manager;
           EquipmentDetailCtx.logs := item_logs |}
  end.

Module EquipmentStatsCtx.
Record t := mk {
  current_user : option User.t;
  page_title : string;
  total_equipment : nat;
  by_status : gmap string nat;
  by_department : gmap string nat;
}.
End EquipmentStatsCtx.

(** [d[k] = d.get(k, 0) + 1] *)
Definition bump (k : string) (d : gmap string nat) : gmap string nat :=
  <[k := (default 0 (d !! k) + 1)%nat]> d.

(** [getattr(e, "status", "UNKNOWN") or "UNKNOWN"] *)
Definition status_key (e : Equipment.t) : string :=
  let st := EquipmentStatus_value (Equipment.status e) in
  if decide (st = "") then "UNKNOWN" else st.

(** [getattr(e, "usingDepartment", None) or "N/A"] *)
Definition department_key (e : Equipment.t) : string :=
  match Equipment.usingDepartment e with
  | Some dept => if decide (dept = "") then "N/A" else dept
  | None => "N/A"
  end.

(** The loop of [equipment_stats_page] over the equipment list. *)
Definition count_equipment (items : list Equipment.t)
    : gmap string nat * gmap string nat :=
  foldl (λ acc e, (bump (status_key e) acc.1, bump (department_key e) acc.2))
        (∅, ∅) items.

(** [GET /equipment-stats] *)
Definition equipment_stats_page (db : DataStore) (request : Request)
    : PageResponse EquipmentStatsCtx.t :=
  match require_staff db request with
  | Some r => Redirect r
  | None =>
      let items := equipment db in
      let total := length items in
      let counts := count_equipment items in
      TemplateResponse "equipment_stats.html"
        {| EquipmentStatsCtx.current_user := get_current_user db request;
           EquipmentStatsCtx.page_title := "Thống kê thiết bị";
           EquipmentStatsCtx.total_equipment := total;
           EquipmentStatsCtx.by_status := counts.1;
           EquipmentStatsCtx.by_department := counts.2 |}
  end.

(** ** Booking creation *)

(** [POST /api/bookings/create], from the point where the [Booking] record
    has been built from the request body: it is appended, nothing is
    checked. *)
Definition create_booking (db : DataStore) (new_booking : Booking.t)
    : list (string * json) * DataStore :=
  ([("success", JBool true)],
   {| users := users db; equipment := equipment db;
      bookings := bookings db ++ [new_booking]; logs := logs db |}).

(** ** JSON projections *)

(** An API answer: [JSONResponse({"success": False, "message":
    "Unauthorized"}, status_code=401)] or [{"success": True, "data": ..}]. *)
Inductive ApiResponse (A : Type) :=
  | ApiUnauthorized
  | ApiData (data : A).
Arguments ApiUnauthorized {A}.
Arguments ApiData {A} data.

(** [GET /api/me] *)
Definition api_me (db : DataStore) (request : Request) : ApiResponse User.t :=
  match get_current_user db request with
  | None => ApiUnauthorized
  | Some user => ApiData user
  end.

(** [GET /api/equipment] *)
Definition api_equipment_list (db : DataStore) (request : Request)
    : ApiResponse (list Equipment.t) :=
  match require_login db request with
  | Some _ => ApiUnauthorized
  | None => ApiData (equipment db)
  end.

(** [GET /api/users] *)
Definition api_users (db : DataStore) (request : Request)
    : ApiResponse (list User.t) :=
  match require_staff db request with
  | Some _ => ApiUnauthorized
  | None => ApiData (users db)
  end.

(** [GET /api/usage-logs] *)
Definition api_usage_logs (db : DataStore) (request : Request)
    : ApiResponse (list UsageLog.t) :=
  match require_staff db request with
  | Some _ => ApiUnauthorized
  | None => ApiData (logs db)
  end.

(** ** Guarded pages *)

(** The context of a page that shows data of the store: the current user,
    the title and what the handler adds to it. *)
Module PageCtx.
Record t (A : Type) := mk {
  current_user : option User.t;
  page_title : string;
  extra : A;
}.
Arguments mk {A} _ _ _.
Arguments current_user {A} _.
Arguments page_title {A} _.
Arguments extra {A} _.
End PageCtx.

(** [ctx = common_context(request); ctx.update({"page_title": .., ..})] and
    the template response. *)
Definition render {A} (db : DataStore) (request : Request)
    (template title : string) (extra : A) : PageResponse (PageCtx.t A) :=
  TemplateResponse template
    (PageCtx.mk (get_current_user db request) title extra).

(** [r = guard(request); if r: return r] *)
Definition guarded {A} (guard : option RedirectResponse)
    (page : PageResponse A) : PageResponse A :=
  match guard with
  | Some r => Redirect r
  | None => page
  end.

(** [GET /login] *)
Definition login_page (db : DataStore) (request : Request)
    : PageResponse (PageCtx.t unit) :=
  match get_current_user db request with
  | Some _ => Redirect (redirect_to "/")
  | None => render db request "login.html" "Đăng nhập" ()
  end.

(** [GET /layout] *)
Definition layout_page (db : DataStore) (request : Request)
    : PageResponse (PageCtx.t unit) :=
  guarded (require_login db request)
          (render db request "layout.html" "Layout" ()).

(** [GET /dashboard] *)
Definition dashboard_page (db : DataStore) (request : Request)
    : PageResponse (PageCtx.t unit) :=
  guarded (require_staff db request)
          (render db request "dashboard.html" "Dashboard" ()).

(** [GET /ai-assistant] *)
Definition ai_assistant_page (db : DataStore) (request : Request)
    : PageResponse (PageCtx.t unit) :=
  guarded (require_login db request)
          (render db request "assistant.html" "AI Assistant" ()).

(** [GET /profile]: [profile_user] is [ctx["current_user"]]. *)
Definition user_profile_page (db : DataStore) (request : Request)
    : PageResponse (PageCtx.t (option User.t)) :=
  guarded (require_login db request)
          (render db request "profile.html" "Hồ sơ cá nhân"
                  (get_current_user db request)).

(** [GET /maintenance] *)
Definition maintenance (db : DataStore) (request : Request)
    : PageResponse (PageCtx.t unit) :=
  guarded (require_staff db request)
          (render db request "maintenance.html" "Bảo trì & Sửa chữa" ()).

(** [GET /maintenance-list] *)
Definition maintenance_list_page (db : DataStore) (request : Request)
    : PageResponse (PageCtx.t unit) :=
  guarded (require_staff db request)
          (render db request "maintenance_list.html" "Maintenance List" ()).

(** [GET /scan] and its alias [GET /qr-scanner] *)
Definition qr_scan_page (db : DataStore) (request : Request)
    : PageResponse (PageCtx.t unit) :=
  render db request "qr_scanner.html" "Quét QR" ().

Definition qr_scanner_alias (db : DataStore) (request : Request)
    : PageResponse (PageCtx.t unit) :=
  qr_scan_page db request.

(** [GET /usage-logs] *)
Definition usage_log_list_page (db : DataStore) (request : Request)
    : PageResponse (PageCtx.t (list UsageLog.t)) :=
  guarded (require_staff db request)
          (render db request "usage_logs.html" "Usage Logs" (logs db)).

(** [GET /inventory]: reads the sessions without creating the attribute. *)
Definition inventory_list_page (app : App) (request : Request)
    : PageResponse (PageCtx.t (list jvalue)) :=
  guarded (require_staff (store app) request)
          (render (store app) request "inventory.html" "Inventory"
                  (default [] (inventorySessions app))).

(** [GET /admin] and its alias [GET /admin-panel] *)
Definition admin_panel (db : DataStore) (request : Request)
    : PageResponse (PageCtx.t (list User.t)) :=
  guarded (require_admin db request)
          (render db request "admin.html" "Quản trị" (users db)).

Definition admin_panel_alias (db : DataStore) (request : Request)
    : PageResponse (PageCtx.t (list User.t)) :=
  admin_panel db request.

(** What a page handler answered, its context put aside. *)
Inductive Verdict :=
  | Rendered (template : string)
  | RedirectedTo (path : string).

Definition verdict {C} (r : PageResponse C) : Verdict :=
  match r with
  | TemplateResponse template _ => Rendered template
  | Redirect r => RedirectedTo (location r)
  end.

(** What each guard level lets through. *)
Inductive Level := Public | LoggedIn | StaffOnly | AdminOnly.

Definition admitted (level : Level) (user : option User.t) : Prop :=
  match level, user with
  | Public, _ => True
  | LoggedIn, Some _ => True
  | StaffOnly, Some u => User.role u = STAFF ∨ User.role u = ADMIN
  | AdminOnly, Some u => User.role u = ADMIN
  | _, None => False
  end.

(** The answer of a page of a given level: its template for whom the level
    admits, [/login] for the anonymous, [/] for the others. *)
Definition expected (level : Level) (template : string)
    (user : option User.t) : Verdict :=
  match level, user with
  | Public, _ => Rendered template
  | _, None => RedirectedTo "/login"
  | LoggedIn, Some _ => Rendered template
  | StaffOnly, Some u =>
      if decide (User.role u = STAFF ∨ User.role u = ADMIN)
      then Rendered template else RedirectedTo "/"
  | AdminOnly, Some u =>
      if decide (User.role u = ADMIN)
      then Rendered template else RedirectedTo "/"
  end.

(** ** Inventory sessions *)

Inductive py_error := TypeError.

Inductive InventoryResponse :=
  | Unauthorized
  | SessionsData (data : list jvalue)
  | SessionCreated (data : jvalue)
  | SessionUpdated (updated : bool)
  | SessionDeleted (deleted : Z).

Definition _ensure_inventory_store (app : App) : App :=
  match inventorySessions app with
  | None => {| store := store app; home_config := home_config app;
               inventorySessions := Some [] |}
  | Some _ => app
  end.

(** [db.inventorySessions = sessions] *)
Definition set_sessions (app : App) (sessions : list jvalue) : App :=
  {| store := store app; home_config := home_config app;
     inventorySessions := Some sessions |}.

(** [s.get(k) if isinstance(s, dict) else getattr(s, k, None)]: a JSON value
    that is not an object has no attribute. *)
Definition session_get (k : string) (s : jvalue) : option jvalue :=
  match s with
  | JDict d => d !! k
  | _ => None
  end.

(** [sid == session_id]: only a JSON string equals the path parameter. *)
Definition has_id (session_id : string) (s : jvalue) : bool :=
  match session_get "id" s with
  | Some (JString sid) => bool_decide (sid = session_id)
  | _ => false
  end.

(** [PUT]: the loop building [new_list]; [{**s, **payload}] raises
    [TypeError] when [payload] is not an object. *)
Fixpoint update_sessions (session_id : string) (payload : jvalue)
    (sessions : list jvalue) : py_error + (list jvalue * bool) :=
  match sessions with
  | [] => inr ([], false)
  | s :: rest =>
      if has_id session_id s then
        match s, payload with
        | JDict d, JDict p =>
            match update_sessions session_id payload rest with
            | inr (new_list, _) => inr (JDict (p ∪ d) :: new_list, true)
            | inl e => inl e
            end
        | _, _ => inl TypeError
        end
      else
        match update_sessions session_id payload rest with
        | inr (new_list, updated) => inr (s :: new_list, updated)
        | inl e => inl e
        end
  end.

Section inventory.
Context `{Builtins}.

(** The year of a session's [date], [None] when it has none or when
    [fromisoformat] raises (the handler catches every exception). *)
Definition session_year (s : jvalue) : option Z :=
  match session_get "date" s with
  | Some (JString date_str) =>
      if decide (date_str = "") then None else fromisoformat_year date_str
  | _ => None
  end.

(** [GET /api/inventory/sessions] *)
Definition api_inventory_sessions (app : App) (request : Request)
    (year : option Z) : InventoryResponse * App :=
  match require_staff (store app) request with
  | Some _ => (Unauthorized, app)
  | None =>
      let app := _ensure_inventory_store app in
      let sessions := default [] (inventorySessions app) in
      let sessions :=
        match year with
        | Some y => filter (λ s, session_year s = Some y) sessions
        | None => sessions
        end in
      (SessionsData sessions, app)
  end.

End inventory.

(** [POST /api/inventory/sessions] *)
Definition api_inventory_create_session (app : App) (request : Request)
    (payload : jvalue) : InventoryResponse * App :=
  match require_staff (store app) request with
  | Some _ => (Unauthorized, app)
  | None =>
      let app := _ensure_inventory_store app in
      (SessionCreated payload,
       set_sessions app (default [] (inventorySessions app) ++ [payload]))
  end.

(** [PUT /api/inventory/sessions/{session_id}]: the answer, or the exception
    that leaves the handler, and the state left behind. *)
Definition api_inventory_update_session (app : App) (request : Request)
    (session_id : string) (payload : jvalue)
    : (py_error + InventoryResponse) * App :=
  match require_staff (store app) request with
  | Some _ => (inr Unauthorized, app)
  | None =>
      let app := _ensure_inventory_store app in
      match update_sessions session_id payload
              (default [] (inventorySessions app)) with
      | inr (new_list, updated) =>
          (inr (SessionUpdated updated), set_sessions app new_list)
      | inl e => (inl e, app)
      end
  end.

(** [DELETE /api/inventory/sessions/{session_id}] *)
Definition api_inventory_delete_session (app : App) (request : Request)
    (session_id : string) : InventoryResponse * App :=
  match require_staff (store app) request with
  | Some _ => (Unauthorized, app)
  | None =>
      let app := _ensure_inventory_store app in
      let before := length (default [] (inventorySessions app)) in
      let kept := filter (λ s, ¬ has_id session_id s)
                         (default [] (inventorySessions app)) in
      (SessionDeleted (Z.of_nat before - Z.of_nat (length kept)),
       set_sessions app kept)
  end.

(** The seeded application of [app/data.py]. *)
Definition seed_app : App :=
  {| store := seed;
     home_config :=
       Some (HomePageConfig.mk "QUẢN LÝ TB KHOA KHOA HỌC CƠ BẢN"
                               ["e1"; "e2"] 15300);
     inventorySessions := None |}.

(** * What the specification says, in its own words *)

(** Section 4.3, equipment listing: the search string occurs in [t] up to
    case, i.e. after both have been lower-cased. *)
Definition ci_substring `{Builtins} (s t : string) : Prop :=
  is_substring (str_lower s) (str_lower t).

(** Section 4.3: the record is kept under the filters [(search, status)]. *)
Definition listed `{Builtins} (search status : string) (e : Equipment.t) : Prop :=
  (search = "" ∨ ci_substring search (Equipment.name e)
               ∨ ci_substring search (Equipment.code e))
  ∧ (status = "ALL" ∨ EquipmentStatus_value (Equipment.status e) = status).

(** Section 6, login: the stored user exists, the password is the stored
    credential and the account is not locked. *)
Definition credentials_ok (db : DataStore) (user_id password : string) : Prop :=
  ∃ u, get_user db user_id = Some u
       ∧ User.password u = password ∧ User.isLocked u = false.

(** The two answers of [POST /api/login]. *)
Definition login_succeeded (r : JSONResponse) (user_id : string) : Prop :=
  status_code r = 200
  ∧ content r = [("success", JBool true); ("redirect", JStr "/")]
  ∧ set_cookies r = [ {| key := "user_id"; value := user_id;
                         httponly := true; samesite := "lax" |} ].

Definition login_rejected (r : JSONResponse) : Prop :=
  status_code r = 401
  ∧ (∃ message, content r = [("success", JBool false);
                             ("message", JStr message)])
  ∧ set_cookies r = [].

(** Two users that differ at most in their locked flag, and two stores whose
    users differ at most in their locked flags. *)
Definition same_but_lock (u u' : User.t) : Prop :=
  User.id u = User.id u' ∧ User.name u = User.name u'
  ∧ User.role u = User.role u' ∧ User.department u = User.department u'
  ∧ User.violationCount u = User.violationCount u'
  ∧ User.password u = User.password u'.

Definition lock_variant (db db' : DataStore) : Prop :=
  Forall2 same_but_lock (users db) (users db')
  ∧ equipment db = equipment db' ∧ bookings db = bookings db'
  ∧ logs db = logs db'.

(** [set_locked b uid db]: the store [db] with the locked flag of every user
    named [uid] set to [b]. *)
Definition set_locked (b : bool) (uid : string) (db : DataStore) : DataStore :=
  {| users := (λ u, if decide (User.id u = uid)
                    then User.mk (User.id u) (User.name u) (User.role u)
                                 (User.department u) (User.violationCount u)
                                 b (User.password u)
                    else u) <$> users db;
     equipment := equipment db; bookings := bookings db; logs := logs db |}.

(** Section 4.3, booking tab partition, on enhanced bookings. *)
Definition has_status (st : BookingStatus) (b : Enhanced.t) : Prop :=
  Booking.status (Enhanced.booking b) = st.

Definition in_history (b : Enhanced.t) : Prop :=
  Booking.status (Enhanced.booking b) ∈ [COMPLETED; CANCELLED; REJECTED].

(** Some usage log's [bookingId] is the id of [b]. *)
Definition referenced_by (logs : list UsageLog.t) (b : Enhanced.t) : Prop :=
  Exists (λ l, UsageLog.bookingId l = Some (get_id b)) logs.

#[global] Instance has_status_dec (st : BookingStatus) (b : Enhanced.t) :
  Decision (has_status st b).
Proof. unfold has_status. apply _. Defined.
#[global] Instance in_history_dec (b : Enhanced.t) : Decision (in_history b).
Proof. unfold in_history. apply _. Defined.
#[global] Instance referenced_by_dec (logs : list UsageLog.t) (b : Enhanced.t) :
  Decision (referenced_by logs b).
Proof. unfold referenced_by. apply _. Defined.

(** The WAITING_LOG row of the table, as the specification words it. *)
Definition waiting_log_spec (bookings : list Enhanced.t)
    (logs : list UsageLog.t) : list Enhanced.t :=
  filter (λ b, has_status COMPLETED b ∧ ¬ referenced_by logs b) bookings.

(** The start time of [b] falls in the calendar year [y]. *)
Definition in_year `{Builtins} (y : Z) (b : Enhanced.t) : Prop :=
  fromisoformat_year (get_startTime b) = Some y.

#[global] Instance in_year_dec `{Builtins} (y : Z) (b : Enhanced.t) :
  Decision (in_year y b).
Proof. unfold in_year. apply _. Defined.

Definition year_allows `{Builtins} (year : option Z) (b : Enhanced.t) : Prop :=
  match year with
  | Some y => in_year y b
  | None => True
  end.

#[global] Instance year_allows_dec `{Builtins} (year : option Z)
  (b : Enhanced.t) : Decision (year_allows year b).
Proof. destruct year; unfold year_allows, in_year; apply _. Defined.

(** The HISTORY row of the table, as the specification words it: a given
    year restricts the result, no year restricts nothing. *)
Definition history_spec `{Builtins} (bookings : list Enhanced.t)
    (year : option Z) : list Enhanced.t :=
  filter (λ b, in_history b ∧ year_allows year b) bookings.

(** The year a request asks for, if it asks for one. *)
Definition requested_year `{Builtins} (request : Request) : option Z :=
  query_params request !! "year" ≫= int_of_str.

(** Every booking that counts as history carries a start time that
    [datetime.fromisoformat] reads. *)
Definition well_dated `{Builtins} (bookings : list Enhanced.t) : Prop :=
  ∀ b, b ∈ bookings → in_history b →
       is_Some (fromisoformat_year (get_startTime b)).

(** Section 4.3: what a logged-in user may see. *)
Definition visible_bookings (db : DataStore) (user : User.t) : list Booking.t :=
  if decide (User.role user = STAFF ∨ User.role user = ADMIN)
  then bookings db
  else filter (λ b, Booking.userId b = User.id user) (bookings db).

(** The tab badges and the year list shown next to the filtered list. *)
Record Badges := {
  pending : nat;
  approved : nat;
  active : nat;
  waiting_log : nat;
  history : nat;
  years : list Z;
}.

Definition badges_of (ctx : BookingsCtx.t) : Badges :=
  {| pending := BookingsCtx.pending_count ctx;
     approved := BookingsCtx.approved_count ctx;
     active := BookingsCtx.active_count ctx;
     waiting_log := BookingsCtx.waiting_log_count ctx;
     history := BookingsCtx.history_count ctx;
     years := BookingsCtx.history_years ctx |}.

Definition page_badges (r : result (PageResponse BookingsCtx.t))
    : result (option Badges) :=
  (λ resp, match resp with
           | Redirect _ => None
           | TemplateResponse _ ctx => Some (badges_of ctx)
           end) <$> r.

(** The counts taken over a whole booking set. *)
Definition counts_over (enhanced : list Enhanced.t) (logged : gset string)
    (yrs : list Z) : Badges :=
  {| pending := length (filter (has_status PENDING) enhanced);
     approved := length (filter (has_status APPROVED) enhanced);
     active := length (filter (has_status ACTIVE) enhanced);
     waiting_log :=
       length (filter (λ b, has_status COMPLETED b ∧ get_id b ∉ logged)
                      enhanced);
     history := length (filter in_history enhanced);
     years := yrs |}.

(** The tab names the filter knows. *)
Definition KNOWN_TABS : list string :=
  ["PENDING"; "APPROVED"; "ACTIVE"; "WAITING_LOG"; "HISTORY"].

(** A request with its [tab] parameter replaced (or removed). *)
Definition with_tab (tab : option string) (request : Request) : Request :=
  {| cookies := cookies request;
     query_params :=
       match tab with
       | Some t => <["tab" := t]> (query_params request)
       | None => delete "tab" (query_params request)
       end |}.

(** The context [bookings_page] hands to its template, as a function of
    what the handler has computed by then. *)
Definition bookings_ctx (user : User.t) (enhanced : list Enhanced.t)
    (logged : gset string) (tab : string) (year : Z)
    (filtered : list Enhanced.t) (yrs : list Z) : BookingsCtx.t :=
  {| BookingsCtx.current_user := Some user;
     BookingsCtx.page_title := "Booking List";
     BookingsCtx.bookings := enhanced;
     BookingsCtx.filtered_bookings := filtered;
     BookingsCtx.active_tab := tab;
     BookingsCtx.selected_history_year := year;
     BookingsCtx.history_years := yrs;
     BookingsCtx.pending_count :=
       length (filter (λ b, get_status b = "PENDING") enhanced);
     BookingsCtx.approved_count :=
       length (filter (λ b, get_status b = "APPROVED") enhanced);
     BookingsCtx.active_count :=
       length (filter (λ b, get_status b = "ACTIVE") enhanced);
     BookingsCtx.waiting_log_count :=
       length (filter (λ b, get_status b = "COMPLETED" ∧ get_id b ∉ logged)
                      enhanced);
     BookingsCtx.history_count :=
       length (filter (λ b, get_status b ∈ HISTORY_STATUSES) enhanced) |}.

(** ** Sample data *)

(** A store with three bookings and one usage log, on top of the seed. *)
Definition demo_bookings : list Booking.t := [
  Booking.mk "b1" "u3" "e1" "2024-05-01T09:00:00" "2024-05-01T10:00:00"
             COMPLETED;
  Booking.mk "b2" "u3" "e2" "2020-03-01" "2020-03-02" CANCELLED;
  Booking.mk "b3" "u2" "e1" "2024-06-01T09:00:00" "2024-06-01T10:00:00"
             PENDING
].

Definition demo : DataStore :=
  {| users := seed_users; equipment := seed_equipment;
     bookings := demo_bookings;
     logs := [UsageLog.mk "l1" (Some "b1") "e1" "ok"] |}.

(** A completed booking created with an empty id, and a usage log whose
    [bookingId] is the empty string. *)
Definition blank_booking : Enhanced.t :=
  {| Enhanced.booking :=
       Booking.mk "" "u3" "e1" "2024-05-01T09:00:00" "2024-05-01T10:00:00"
                  COMPLETED;
     Enhanced.equipmentName := "Kính Hiển Vi Điện Tử Olympus CX23";
     Enhanced.equipmentCode := "KHV-001" |}.

Definition blank_log : UsageLog.t := UsageLog.mk "l0" (Some "") "e1" "".

(** The sum of the counts a mapping holds. *)
Definition total_of (d : gmap string nat) : nat :=
  map_fold (λ _ n acc, (n + acc)%nat) 0%nat d.

(** One of the two mappings [count_equipment] builds, on its own: the
    records of [items] counted under their key, on top of [d]. *)
Definition tally {A} (key : A → string) (items : list A)
    (d : gmap string nat) : gmap string nat :=
  foldl (λ acc e, bump (key e) acc) d items.

(** The home page served once for each request of a list, in order. *)
Definition visits (app : App) (requests : list Request) : App :=
  foldl (λ a r, (home a r).2) app requests.

(** What [PUT] makes of one session when the payload is the object [p]. *)
Definition merged (session_id : string) (p : gmap string jvalue)
    (s : jvalue) : jvalue :=
  match s with
  | JDict d => if has_id session_id s then JDict (p ∪ d) else s
  | _ => s
  end.

(** The sessions the application holds, none when the attribute is missing. *)
Definition sessions_of (app : App) : list jvalue :=
  default [] (inventorySessions app).

Definition is_dict (v : jvalue) : Prop :=
  match v with
  | JDict _ => True
  | _ => False
  end.

(** Two inventory sessions and a stray JSON string, as staff could have
    posted them. *)
Definition session_a : jvalue :=
  JDict (list_to_map [("id", JString "s1"); ("date", JString "2024-01-15");
                      ("note", JString "first")]).

Definition session_b : jvalue :=
  JDict (list_to_map [("id", JString "s2"); ("date", JString "2023-12-31")]).

Definition demo_app : App :=
  {| store := demo;
     home_config := Some (HomePageConfig.mk "SciEquip" ["e2"; "e9"] 15300);
     inventorySessions := Some [session_a; JString "stray"; session_b] |}.


(** * Properties *)

(** ** Strings *)

Lemma prefix_spec (s t : string) :
  String.prefix s t = true ↔ ∃ post, t = s +:+ post.
Proof.
  revert t. induction s as [|a s IH]; intros t.
  - split; [intros _; by exists t | intros _; by destruct t].
  - destruct t as [|b t]; simpl.
    + split; [done | by intros [post ?]].
    + destruct (ascii_dec a b) as [->|Hne].
      * rewrite IH. split; intros [post Hp]; exists post;
          [by rewrite Hp | by injection Hp].
      * split; [done | intros [post Hp]; by injection Hp].
Qed.

Lemma str_in_nil (s : string) : str_in s "" = String.prefix s "" || false.
Proof. done. Qed.

Lemma str_in_cons (s : string) (c : ascii) (t : string) :
  str_in s (String c t) = String.prefix s (String c t) || str_in s t.
Proof. done. Qed.

Lemma str_in_spec (s t : string) : str_in s t = true ↔ is_substring s t.
Proof.
  unfold is_substring. induction t as [|c t IH].
  - rewrite str_in_nil, orb_false_r, prefix_spec. split.
    + intros [post ->]. by exists "", post.
    + intros ([|? pre] & post & Heq); simpl in Heq; [by exists post | done].
  - rewrite str_in_cons, orb_true_iff, prefix_spec, IH. split.
    + intros [[post ->]|(pre & post & ->)];
        [by exists "", post | by exists (String c pre), post].
    + intros ([|a pre] & post & Heq); simpl in Heq.
      * left. by exists post.
      * right. exists pre, post. by injection Heq.
Qed.

#[global] Instance is_substring_dec (s t : string) : Decision (is_substring s t).
Proof.
  refine (cast_if (decide (str_in s t = true))); by rewrite <- str_in_spec.
Defined.

(** ** Enumerations *)

#[global] Instance UserRole_value_inj : Inj (=) (=) UserRole_value.
Proof. by intros [] [] ?. Qed.
#[global] Instance EquipmentStatus_value_inj : Inj (=) (=) EquipmentStatus_value.
Proof. by intros [] [] ?. Qed.
#[global] Instance BookingStatus_value_inj : Inj (=) (=) BookingStatus_value.
Proof. by intros [] [] ?. Qed.

Lemma role_in_staff_admin (r : UserRole) :
  UserRole_value r ∈ ["ADMIN"; "STAFF"] ↔ r = STAFF ∨ r = ADMIN.
Proof.
  rewrite !elem_of_cons, elem_of_nil.
  destruct r; simpl; split; intros Hx; try (by auto);
    by destruct Hx as [?|[?|?]] || destruct Hx.
Qed.

(** ** Store lookups *)

Lemma get_user_id (db : DataStore) (user_id : string) (u : User.t) :
  get_user db user_id = Some u → User.id u = user_id ∧ u ∈ users db.
Proof.
  unfold get_user. intros Hhd. apply head_Some_elem_of in Hhd.
  by apply list_elem_of_filter in Hhd.
Qed.

Lemma get_user_lock_variant (us us' : list User.t) (user_id : string) :
  Forall2 same_but_lock us us' →
  option_Forall2 same_but_lock
    (head (filter (λ u, User.id u = user_id) us))
    (head (filter (λ u, User.id u = user_id) us')).
Proof.
  induction 1 as [|u u' us us' Hu _ IH]; [constructor|].
  rewrite !filter_cons. destruct Hu as (Hid & ?).
  destruct (decide (User.id u = user_id)), (decide (User.id u' = user_id));
    try congruence.
  simpl. constructor. by split.
Qed.

(** ** Equipment listing *)

#[global] Instance listed_dec `{Builtins} (search status : string)
  (e : Equipment.t) : Decision (listed search status e).
Proof. unfold listed, ci_substring. apply _. Defined.

Lemma filter_all {A} (P : A → Prop) `{!∀ x, Decision (P x)} (l : list A) :
  (∀ x, P x) → filter P l = l.
Proof.
  intros HP. induction l as [|x l IH]; [done|].
  by rewrite filter_cons_True, IH.
Qed.

Lemma str_in_ci `{Builtins} (search t : string) :
  str_in (str_lower search) (str_lower t) ↔ ci_substring search t.
Proof. unfold ci_substring. by rewrite <- str_in_spec, Is_true_true. Qed.

Lemma listed_code `{Builtins} (search status : string) (items : list Equipment.t) :
  (let items' :=
     if decide (search ≠ "") then
       filter (λ e, str_in (str_lower search) (str_lower (Equipment.name e))
                    || str_in (str_lower search) (str_lower (Equipment.code e)))
              items
     else items in
   if decide (status ≠ "ALL") then
     filter (λ e, EquipmentStatus_value (Equipment.status e) = status) items'
   else items')
  = filter (listed search status) items.
Proof.
  simpl. unfold listed.
  destruct (decide (search ≠ "")) as [Hs|Hs], (decide (status ≠ "ALL")) as [Ht|Ht];
    rewrite ?list_filter_filter.
  - apply list_filter_iff. intros e.
    rewrite orb_True, !str_in_ci. tauto.
  - apply list_filter_iff. intros e.
    rewrite orb_True, !str_in_ci. apply dec_stable in Ht. tauto.
  - apply list_filter_iff. intros e. apply dec_stable in Hs. tauto.
  - symmetry. apply filter_all. intros e.
    apply dec_stable in Hs. apply dec_stable in Ht. tauto.
Qed.

(** C1. For every store, search string and status filter, a record is in the
    listing exactly when it is in the store, the search string is empty or
    occurs up to case in its name or in its code, and the status filter is
    ["ALL"] or equals its status; the listing is the store filtered in place,
    so it keeps the store's insertion order. *)
Theorem equipment_list_spec `{Builtins} (db : DataStore) (request : Request)
    (search status : string) :
  ∃ ctx,
    equipment_list db request search status
      = TemplateResponse "equipment_list.html" ctx
    ∧ EquipmentListCtx.equipment ctx
      = filter (listed search status) (equipment db)
    ∧ (∀ e, e ∈ EquipmentListCtx.equipment ctx
            ↔ e ∈ equipment db ∧ listed search status e)
    ∧ sublist (EquipmentListCtx.equipment ctx) (equipment db).
Proof.
  eexists. split; [reflexivity|]. cbn [EquipmentListCtx.equipment].
  rewrite listed_code. split_and!.
  - done.
  - intros e. rewrite list_elem_of_filter. tauto.
  - apply sublist_filter.
Qed.

(** The scenario of section 8: searching [olympus] in the seeded store keeps
    the Olympus microscope only. *)
Example equipment_list_olympus :
  equipment_list seed (anonymous []) "olympus" "ALL"
  = TemplateResponse "equipment_list.html"
      {| EquipmentListCtx.current_user := None;
         EquipmentListCtx.page_title := "Thiết bị";
         EquipmentListCtx.equipment :=
           [Equipment.mk "e1" "Kính Hiển Vi Điện Tử Olympus CX23" "KHV-001"
                         (Some "Bộ môn Sinh học") "adminctump" "Lab 101"
                         AVAILABLE];
         EquipmentListCtx.search := "olympus";
         EquipmentListCtx.status_filter := "ALL" |}.
Proof. vm_compute. reflexivity. Qed.

(** ** Login *)

Lemma login_api_cases (db : DataStore) (user_id password : string) :
  (credentials_ok db user_id password
   ∧ ∃ u, get_user db user_id = Some u
          ∧ login_api db user_id password = login_success u)
  ∨ (¬ credentials_ok db user_id password
     ∧ login_api db user_id password = login_failure).
Proof.
  unfold login_api, credentials_ok.
  destruct (get_user db user_id) as [u|] eqn:Hu.
  - destruct (bool_decide (User.password u = password)) eqn:Hpw;
      [apply bool_decide_eq_true in Hpw | apply bool_decide_eq_false in Hpw].
    + destruct (User.isLocked u) eqn:Hlock; simpl.
      * right. split; [|done]. intros (u' & [= <-] & _ & ?). congruence.
      * left. split; [by exists u | by exists u].
    + right. split; [|done]. intros (u' & [= <-] & ? & _). done.
  - right. split; [|done]. by intros (u' & ? & _).
Qed.

(** C7. Login succeeds, answering [{success: true, redirect}] and setting the
    identity cookie to the user's id, exactly when the store holds a user of
    that id whose credential is the password and who is not locked; in every
    other case the answer is 401 with [{success: false, message}] and no
    cookie, in particular for a locked user with the right password. *)
Theorem login_api_spec (db : DataStore) (user_id password : string) :
  let r := login_api db user_id password in
  (credentials_ok db user_id password ↔ login_succeeded r user_id)
  ∧ (credentials_ok db user_id password ∨ login_rejected r)
  ∧ (∀ u, get_user db user_id = Some u → User.isLocked u = true →
          login_rejected r).
Proof.
  assert (Hrej : login_rejected login_failure).
  { split_and!; [done | by eexists | done]. }
  intros r. subst r.
  destruct (login_api_cases db user_id password)
    as [[Hok (u & Hu & ->)]|[Hno ->]].
  - split_and!.
    + split; [intros _ | done]. apply get_user_id in Hu as [<- _].
      by split_and!.
    + by left.
    + intros u' Hu' Hlock. destruct Hok as (u0 & Hu0 & _ & Hfree). congruence.
  - split_and!.
    + split; [done | by intros [? _]].
    + by right.
    + done.
Qed.

(** The scenario of section 8: a locked user's correct credentials. *)
Example login_locked_student :
  login_api (set_locked true "u3" seed) "u3" "123@" = login_failure
  ∧ login_api seed "u3" "123@"
    = login_success (User.mk "u3" "Lê Văn Sinh Viên" STUDENT "Lớp KTPM" 0
                             false "123@").
Proof. split; vm_compute; reflexivity. Qed.

(** ** Access control gate *)

Lemma get_current_user_lock_variant (db db' : DataStore) (request : Request) :
  lock_variant db db' →
  option_Forall2 same_but_lock
    (get_current_user db request) (get_current_user db' request).
Proof.
  intros (Husers & _). unfold get_current_user, get_user.
  destruct (cookies request !! "user_id") as [uid|]; [|constructor].
  case_decide; [constructor|]. by apply get_user_lock_variant.
Qed.

(** C9. When two stores differ at most in the locked flags of their users,
    every request resolves to the same user up to that flag and meets the same
    verdict from [require_login], [require_staff] and [require_admin]: none of
    them reads the flag. *)
Theorem gate_ignores_lock (db db' : DataStore) (request : Request) :
  lock_variant db db' →
  option_Forall2 same_but_lock
    (get_current_user db request) (get_current_user db' request)
  ∧ require_login db request = require_login db' request
  ∧ require_staff db request = require_staff db' request
  ∧ require_admin db request = require_admin db' request.
Proof.
  intros Hvar. pose proof (get_current_user_lock_variant _ _ request Hvar) as Hu.
  split; [done|]. unfold require_login, require_staff, require_admin.
  destruct Hu as [u u' (_ & _ & Hrole & _)|]; [rewrite Hrole|]; done.
Qed.

Lemma set_locked_variant (b : bool) (uid : string) (db : DataStore) :
  lock_variant db (set_locked b uid db).
Proof.
  split; [|done]. simpl. induction (users db) as [|u us IH]; [constructor|].
  rewrite fmap_cons. constructor; [|done].
  case_decide; by repeat split.
Qed.

(** A locked administrator holding the cookie issued before the lock still
    resolves and passes every guard. *)
Lemma gate_ignores_lock_witness :
  lock_variant seed (set_locked true "adminctump" seed)
  ∧ (option_Forall2 same_but_lock
       (get_current_user seed (request_of "adminctump" []))
       (get_current_user (set_locked true "adminctump" seed)
                         (request_of "adminctump" []))
     ∧ require_login seed (request_of "adminctump" [])
       = require_login (set_locked true "adminctump" seed)
                       (request_of "adminctump" [])
     ∧ require_staff seed (request_of "adminctump" [])
       = require_staff (set_locked true "adminctump" seed)
                       (request_of "adminctump" [])
     ∧ require_admin seed (request_of "adminctump" [])
       = require_admin (set_locked true "adminctump" seed)
                       (request_of "adminctump" [])).
Proof.
  split; [apply set_locked_variant|].
  apply (gate_ignores_lock seed (set_locked true "adminctump" seed)).
  apply set_locked_variant.
Defined.

Example locked_admin_passes :
  User.isLocked <$> get_current_user (set_locked true "adminctump" seed)
                                     (request_of "adminctump" []) = Some true
  ∧ require_admin (set_locked true "adminctump" seed)
                  (request_of "adminctump" []) = None
  ∧ require_staff (set_locked true "adminctump" seed)
                  (request_of "adminctump" []) = None.
Proof. vm_compute. done. Qed.

(** ** Booking statuses and logged ids *)

Lemma get_status_is (st : BookingStatus) (b : Enhanced.t) :
  get_status b = BookingStatus_value st ↔ has_status st b.
Proof.
  unfold get_status, has_status. split; [apply (inj _) | by intros ->].
Qed.

Lemma get_status_history (b : Enhanced.t) :
  get_status b ∈ HISTORY_STATUSES ↔ in_history b.
Proof.
  unfold get_status, in_history, HISTORY_STATUSES.
  rewrite !elem_of_cons, !elem_of_nil.
  destruct (Booking.status (Enhanced.booking b)); simpl;
    split; intros Hx; try (by auto);
    by destruct Hx as [?|[?|[?|?]]].
Qed.

Lemma elem_of_logged_ids (logs : list UsageLog.t) (x : string) :
  x ∈ logged_ids_of logs
  ↔ x ≠ "" ∧ Exists (λ l, UsageLog.bookingId l = Some x) logs.
Proof.
  unfold logged_ids_of. rewrite elem_of_list_to_set, list_elem_of_omap.
  rewrite Exists_exists. unfold truthy_id. split.
  - intros (l & Hl & Hx). destruct (UsageLog.bookingId l) as [s|] eqn:Hs; [|done].
    case_decide; [done|]. injection Hx as <-. split; [done | by exists l].
  - intros (Hne & l & Hl & Hs). exists l. split; [done|]. rewrite Hs.
    by rewrite decide_False.
Qed.

(** ** Sorting the year set *)

Lemma sorted_reverse_elem_of (s : gset Z) (y : Z) :
  y ∈ sorted_reverse s ↔ y ∈ s.
Proof.
  unfold sorted_reverse. by rewrite merge_sort_Permutation, elem_of_elements.
Qed.

Lemma StronglySorted_ge_gt (l : list Z) :
  StronglySorted Z.ge l → NoDup l → StronglySorted Z.gt l.
Proof.
  induction 1 as [|x l _ IH Hall]; intros Hnd; [constructor|].
  apply NoDup_cons in Hnd as [Hx Hnd]. constructor; [by apply IH|].
  rewrite Forall_forall in Hall |- *. intros y Hy.
  assert (x ≠ y) by (by intros ->). specialize (Hall y Hy). lia.
Qed.

Lemma sorted_reverse_sorted (s : gset Z) : StronglySorted Z.gt (sorted_reverse s).
Proof.
  apply StronglySorted_ge_gt.
  - unfold sorted_reverse.
    assert (Transitive Z.ge) by (intros x y z ??; lia).
    assert (Total Z.ge) by (intros x y; lia).
    by apply StronglySorted_merge_sort.
  - unfold sorted_reverse. rewrite merge_sort_Permutation. apply NoDup_elements.
Qed.

Lemma sorted_reverse_nil (s : gset Z) : sorted_reverse s = [] ↔ s = ∅.
Proof.
  split.
  - intros Hnil. apply set_eq. intros y.
    rewrite <- sorted_reverse_elem_of, Hnil. set_solver.
  - intros ->. done.
Qed.

(** ** Years of history bookings *)

Lemma filter_start_year_ok `{Builtins} (year : Z) (l : list Enhanced.t) :
  Forall (λ b, is_Some (fromisoformat_year (get_startTime b))) l →
  filter_start_year year l = Ok (filter (in_year year) l).
Proof.
  induction 1 as [|b l [y Hy] _ IH]; [done|].
  cbn [filter_start_year]. rewrite Hy, IH. simpl.
  destruct (decide (y = year)) as [->|Hne].
  - by rewrite filter_cons_True.
  - rewrite filter_cons_False; [done|]. unfold in_year. congruence.
Qed.

Lemma well_dated_cons `{Builtins} (b : Enhanced.t) (l : list Enhanced.t) :
  well_dated (b :: l)
  ↔ (in_history b → is_Some (fromisoformat_year (get_startTime b)))
    ∧ well_dated l.
Proof.
  unfold well_dated. setoid_rewrite elem_of_cons. split.
  - intros Hwd. split; [intros; apply Hwd; auto | intros; apply Hwd; auto].
  - intros [Hb Hl] b' [->|Hin] Hh; auto.
Qed.

Lemma well_dated_history `{Builtins} (l : list Enhanced.t) :
  well_dated l →
  Forall (λ b, is_Some (fromisoformat_year (get_startTime b)))
         (filter (λ b, get_status b ∈ HISTORY_STATUSES) l).
Proof.
  intros Hwd. apply Forall_forall. intros b [Hh Hin]%list_elem_of_filter.
  apply Hwd; [done | by apply get_status_history].
Qed.

Lemma history_year_set_ok `{Builtins} (l : list Enhanced.t) :
  well_dated l →
  ∃ ys, history_year_set l = Ok ys
        ∧ ∀ y, y ∈ ys ↔ ∃ b, b ∈ l ∧ in_history b ∧ in_year y b.
Proof.
  induction l as [|b l IH]; intros Hwd.
  { exists ∅. split; [done|]. intros y. split; [set_solver|].
    intros (b & Hb & _). by apply elem_of_nil in Hb. }
  apply well_dated_cons in Hwd as [Hb Hwd].
  destruct (IH Hwd) as (ys & Hys & Hmem). cbn [history_year_set].
  destruct (decide (get_status b ∈ HISTORY_STATUSES)) as [Hh|Hh];
    rewrite get_status_history in Hh.
  - destruct (Hb Hh) as [y0 Hy0].
    rewrite Hy0, Hys. exists ({[ y0 ]} ∪ ys). split; [done|]. intros y.
    rewrite elem_of_union, elem_of_singleton, Hmem. split.
    + intros [->|(b' & Hin & ? & ?)].
      * exists b. split_and!; [apply elem_of_cons; by left | done | done].
      * exists b'. split_and!; [apply elem_of_cons; by right | done | done].
    + intros (b' & [->|Hin]%elem_of_cons & ? & Hy).
      * left. unfold in_year in Hy. congruence.
      * right. by exists b'.
  - rewrite Hys. exists ys. split; [done|]. intros y. rewrite Hmem. split.
    + intros (b' & Hin & ? & ?). exists b'.
      split_and!; [apply elem_of_cons; by right | done | done].
    + intros (b' & [->|Hin]%elem_of_cons & ? & ?); [done | by exists b'].
Qed.

(** When the year filter of the HISTORY tab raises, so does the year list:
    both read the start time of every history booking. *)
Lemma filter_start_year_raise `{Builtins} (year : Z) (l : list Enhanced.t) (e : exn) :
  filter_start_year year (filter (λ b, get_status b ∈ HISTORY_STATUSES) l)
    = Raise e →
  history_year_set l = Raise ValueError.
Proof.
  induction l as [|b l IH]; [done|]. rewrite filter_cons.
  cbn [history_year_set].
  destruct (decide (get_status b ∈ HISTORY_STATUSES)); [|done].
  cbn [filter_start_year].
  destruct (fromisoformat_year (get_startTime b)); [|done].
  destruct (filter_start_year year _) as [|e1] eqn:Hrest; [done|].
  destruct e, e1. intros _. by rewrite IH.
Qed.

(** ** The tab filter *)

Lemma filter_by_tab_ok `{Builtins} (l : list Enhanced.t) (tab : string)
    (logged : gset string) (year : option Z) :
  well_dated l → ∃ fb, filter_by_tab l tab logged year = Ok fb.
Proof.
  intros Hwd. unfold filter_by_tab. repeat case_decide; eauto.
  destruct year as [y|]; eauto. case_decide; eauto.
  rewrite filter_start_year_ok by by apply well_dated_history. eauto.
Qed.

Lemma filter_by_tab_raise `{Builtins} (l : list Enhanced.t) (tab : string)
    (logged : gset string) (year : option Z) (e : exn) :
  filter_by_tab l tab logged year = Raise e →
  history_year_set l = Raise ValueError.
Proof.
  unfold filter_by_tab. repeat case_decide; try done.
  destruct year as [y|]; [|done]. case_decide; [|done].
  apply filter_start_year_raise.
Qed.

Lemma filter_history_spec `{Builtins} (l : list Enhanced.t) (year : option Z) :
  filter (year_allows year) (filter (λ b, get_status b ∈ HISTORY_STATUSES) l)
  = history_spec l year.
Proof.
  unfold history_spec. rewrite list_filter_filter. apply list_filter_iff.
  intros b. rewrite get_status_history. tauto.
Qed.

(** ** The bookings page *)

Lemma visible_code (db : DataStore) (user : User.t) :
  (if decide (UserRole_value (User.role user) ∉ ["ADMIN"; "STAFF"])
   then filter (λ b, Booking.userId b = User.id user) (bookings db)
   else bookings db)
  = visible_bookings db user.
Proof.
  unfold visible_bookings.
  destruct (decide (UserRole_value (User.role user) ∉ ["ADMIN"; "STAFF"]))
    as [Hn|Hn], (decide (User.role user = STAFF ∨ User.role user = ADMIN))
    as [Hr|Hr]; try done.
  - by apply role_in_staff_admin in Hr.
  - apply dec_stable in Hn. by apply role_in_staff_admin in Hn.
Qed.

Lemma bookings_page_unfold `{Builtins} (db : DataStore) (now_year : Z)
    (request : Request) (user : User.t) :
  get_current_user db request = Some user →
  let enhanced := enhance db <$> visible_bookings db user in
  let logged := logged_ids_of (logs db) in
  let tab := default "PENDING" (query_params request !! "tab") in
  bookings_page db now_year request
  = (y ← selected_year_of request now_year;
     fb ← filter_by_tab enhanced tab logged (Some y);
     yrs ← history_years enhanced now_year;
     Ok (TemplateResponse "bookings.html"
           (bookings_ctx user enhanced logged tab y fb yrs))).
Proof.
  intros Hu. unfold bookings_page. rewrite Hu, visible_code. done.
Qed.

Lemma badges_of_ctx (user : User.t) (enhanced : list Enhanced.t)
    (logged : gset string) (tab : string) (y : Z)
    (fb : list Enhanced.t) (yrs : list Z) :
  badges_of (bookings_ctx user enhanced logged tab y fb yrs)
  = counts_over enhanced logged yrs.
Proof.
  unfold badges_of, counts_over, bookings_ctx. simpl.
  f_equal; f_equal; apply list_filter_iff; intros b;
    rewrite <- ?get_status_is, ?get_status_history; done.
Qed.

Lemma history_years_ok `{Builtins} (enhanced : list Enhanced.t) (now_year : Z) :
  well_dated enhanced →
  ∃ ys, history_year_set enhanced = Ok ys
        ∧ history_years enhanced now_year
          = Ok (match sorted_reverse ys with
                | [] => [now_year]
                | _ => sorted_reverse ys
                end)
        ∧ ∀ y, y ∈ ys ↔ ∃ b, b ∈ enhanced ∧ in_history b ∧ in_year y b.
Proof.
  intros Hwd. destruct (history_year_set_ok _ Hwd) as (ys & Hys & Hmem).
  exists ys. split_and!; [done| |done]. unfold history_years. by rewrite Hys.
Qed.

Lemma bookings_page_ok `{Builtins} (db : DataStore) (now_year : Z)
    (request : Request) (user : User.t) (y : Z) :
  get_current_user db request = Some user →
  selected_year_of request now_year = Ok y →
  well_dated (enhance db <$> visible_bookings db user) →
  let enhanced := enhance db <$> visible_bookings db user in
  let logged := logged_ids_of (logs db) in
  let tab := default "PENDING" (query_params request !! "tab") in
  ∃ fb yrs,
    filter_by_tab enhanced tab logged (Some y) = Ok fb
    ∧ history_years enhanced now_year = Ok yrs
    ∧ bookings_page db now_year request
      = Ok (TemplateResponse "bookings.html"
              (bookings_ctx user enhanced logged tab y fb yrs)).
Proof.
  intros Hu Hy Hwd enhanced logged tab.
  destruct (filter_by_tab_ok enhanced tab logged (Some y) Hwd) as [fb Hfb].
  destruct (history_years_ok enhanced now_year Hwd) as (ys & _ & Hyrs & _).
  eexists fb, _. split_and!; [done | exact Hyrs |].
  rewrite (bookings_page_unfold _ _ _ _ Hu). cbv zeta.
  subst enhanced logged tab. rewrite Hy. cbn [mbind result_bind].
  rewrite Hfb. cbn [mbind result_bind]. by rewrite Hyrs.
Qed.

(** The badges of the page do not depend on what the tab filter returns. *)
Lemma page_badges_normal `{Builtins} (db : DataStore) (now_year : Z)
    (request : Request) (user : User.t) :
  get_current_user db request = Some user →
  page_badges (bookings_page db now_year request)
  = (y ← selected_year_of request now_year;
     yrs ← history_years (enhance db <$> visible_bookings db user) now_year;
     Ok (Some (counts_over (enhance db <$> visible_bookings db user)
                           (logged_ids_of (logs db)) yrs))).
Proof.
  intros Hu. rewrite (bookings_page_unfold _ _ _ _ Hu). cbv zeta.
  destruct (selected_year_of request now_year) as [y|e]; [|done]. simpl.
  destruct (filter_by_tab _ _ _ _) as [fb|e] eqn:Hfb; simpl.
  - destruct (history_years _ _) as [yrs|e]; [|done]. simpl.
    unfold page_badges. simpl. by rewrite badges_of_ctx.
  - apply filter_by_tab_raise in Hfb. unfold history_years. rewrite Hfb.
    by destruct e.
Qed.

Lemma well_dated_Forall `{Builtins} (l : list Enhanced.t) :
  Forall (λ b, in_history b → is_Some (fromisoformat_year (get_startTime b))) l →
  well_dated l.
Proof. rewrite Forall_forall. intros Hall b Hb. by apply Hall. Qed.

(** Start times of a concrete booking list, checked by evaluation. *)
Ltac well_dated_by_eval :=
  apply well_dated_Forall; vm_compute;
  repeat (constructor; [intros _; eexists; reflexivity|]); constructor.

(** C2 (amended). Whatever the visible bookings and the usage logs, the
    WAITING_LOG tab returns the bookings whose status is COMPLETED and whose
    id is not the non-empty [bookingId] of any usage log: a log whose
    [bookingId] is absent or empty references no booking. *)
Theorem waiting_log_tab `{Builtins} (bookings : list Enhanced.t)
    (logs : list UsageLog.t) (year : option Z) :
  filter_by_tab bookings "WAITING_LOG" (logged_ids_of logs) year
  = Ok (filter (λ b, has_status COMPLETED b
                     ∧ ¬ (get_id b ≠ "" ∧ referenced_by logs b)) bookings).
Proof.
  unfold filter_by_tab. simpl. f_equal. apply list_filter_iff. intros b.
  rewrite elem_of_logged_ids, <- get_status_is. done.
Qed.

(** On bookings whose ids are not empty the tab is the row of the table as
    the specification words it. *)
Lemma waiting_log_tab_named `{Builtins} (bookings : list Enhanced.t)
    (logs : list UsageLog.t) (year : option Z) :
  Forall (λ b, get_id b ≠ "") bookings →
  filter_by_tab bookings "WAITING_LOG" (logged_ids_of logs) year
  = Ok (waiting_log_spec bookings logs).
Proof.
  intros Hids. unfold filter_by_tab, waiting_log_spec. simpl. f_equal.
  induction Hids as [|b l Hb _ IH]; [done|].
  rewrite !filter_cons, IH. apply decide_ext.
  rewrite elem_of_logged_ids, <- get_status_is. tauto.
Qed.

(** C2, as stated, fails: a completed booking with an empty id stays in the
    WAITING_LOG tab although a usage log carries that very [bookingId]. *)
Lemma waiting_log_counterexample :
  filter_by_tab [blank_booking] "WAITING_LOG" (logged_ids_of [blank_log]) None
    = Ok [blank_booking]
  ∧ waiting_log_spec [blank_booking] [blank_log] = [].
Proof. split; vm_compute; reflexivity. Qed.

(** C5. On a tab name outside PENDING, APPROVED, ACTIVE, WAITING_LOG and
    HISTORY the tab filter returns the bookings it was given, unchanged: no
    error and no empty list. *)
Theorem filter_by_tab_unrecognized `{Builtins} (bookings : list Enhanced.t)
    (tab : string) (logged : gset string) (year : option Z) :
  tab ∉ KNOWN_TABS →
  filter_by_tab bookings tab logged year = Ok bookings.
Proof.
  unfold KNOWN_TABS. rewrite !not_elem_of_cons.
  intros (? & ? & ? & ? & ? & _). unfold filter_by_tab.
  by rewrite !decide_False.
Qed.

(** The tab [FOO] over the sample store. *)
Lemma filter_by_tab_unrecognized_witness :
  ("FOO" ∉ KNOWN_TABS)
  ∧ filter_by_tab (enhance demo <$> demo_bookings) "FOO"
                  (logged_ids_of (logs demo)) (Some 2024)
    = Ok (enhance demo <$> demo_bookings).
Proof.
  assert (Hfoo : "FOO" ∉ KNOWN_TABS).
  { apply (bool_decide_unpack _). vm_compute. exact I. }
  split; [exact Hfoo|].
  exact (filter_by_tab_unrecognized (enhance demo <$> demo_bookings) "FOO"
           (logged_ids_of (logs demo)) (Some 2024) Hfoo).
Defined.

(** The scenario of section 8: the page with [tab=FOO] lists every visible
    booking. *)
Example bookings_page_foo :
  (λ r, match r with
        | TemplateResponse _ ctx =>
            Some (bool_decide (BookingsCtx.filtered_bookings ctx
                               = BookingsCtx.bookings ctx),
                  length (BookingsCtx.filtered_bookings ctx))
        | Redirect _ => None
        end) <$> bookings_page demo 2026 (request_of "u2" [("tab", "FOO")])
  = Ok (Some (true, 3%nat)).
Proof. vm_compute. reflexivity. Qed.

(** C6. When the history bookings of a set carry readable start times, the
    year list is strictly descending (hence without repetition); if the set
    has a history booking (COMPLETED, CANCELLED or REJECTED) the list holds
    exactly the calendar years of the start times of its history bookings,
    and otherwise it is the one-element list of the current year. *)
Theorem history_years_spec `{Builtins} (enhanced : list Enhanced.t)
    (now_year : Z) :
  well_dated enhanced →
  ∃ yrs,
    history_years enhanced now_year = Ok yrs
    ∧ StronglySorted Z.gt yrs
    ∧ ((∃ b, b ∈ enhanced ∧ in_history b) →
       ∀ y, y ∈ yrs ↔ ∃ b, b ∈ enhanced ∧ in_history b ∧ in_year y b)
    ∧ ((¬ ∃ b, b ∈ enhanced ∧ in_history b) → yrs = [now_year]).
Proof.
  intros Hwd.
  destruct (history_years_ok enhanced now_year Hwd) as (ys & _ & Hyrs & Hmem).
  eexists. split; [exact Hyrs|].
  destruct (sorted_reverse ys) as [|y0 l] eqn:Hsort.
  - apply sorted_reverse_nil in Hsort as ->. split_and!.
    + repeat constructor.
    + intros (b & Hb & Hh). destruct (Hwd b Hb Hh) as [y Hy].
      assert (y ∈ (∅ : gset Z)) by (apply Hmem; by exists b). set_solver.
    + done.
  - rewrite <- Hsort. split_and!.
    + apply sorted_reverse_sorted.
    + intros _ y. by rewrite sorted_reverse_elem_of.
    + intros Hnone. assert (Hy0 : y0 ∈ ys).
      { apply sorted_reverse_elem_of. rewrite Hsort. apply elem_of_cons. by left. }
      apply Hmem in Hy0 as (b & ? & ? & _). destruct Hnone. by exists b.
Qed.

(** The sample store: its history bookings are dated 2024 and 2020. *)
Lemma history_years_spec_witness :
  well_dated (enhance demo <$> demo_bookings)
  ∧ ∃ yrs,
      history_years (enhance demo <$> demo_bookings) 2026 = Ok yrs
      ∧ StronglySorted Z.gt yrs
      ∧ ((∃ b, b ∈ enhance demo <$> demo_bookings ∧ in_history b) →
         ∀ y, y ∈ yrs ↔ ∃ b, b ∈ enhance demo <$> demo_bookings
                              ∧ in_history b ∧ in_year y b)
      ∧ ((¬ ∃ b, b ∈ enhance demo <$> demo_bookings ∧ in_history b) →
         yrs = [2026]).
Proof.
  assert (Hwd : well_dated (enhance demo <$> demo_bookings))
    by well_dated_by_eval.
  split; [exact Hwd|].
  exact (history_years_spec (enhance demo <$> demo_bookings) 2026 Hwd).
Defined.

Example history_years_demo :
  history_years (enhance demo <$> demo_bookings) 2026 = Ok [2024; 2020]
  ∧ history_years (enhance seed <$> []) 2026 = Ok [2026].
Proof. split; vm_compute; reflexivity. Qed.

(** C8. For a logged-in user whose request carries a readable year, over a
    store whose visible history bookings carry readable start times, the page
    is rendered; the bookings it shows before any tab filter are all the
    bookings of the store when the user's role is STAFF or ADMIN and exactly
    those whose [userId] is the user's id otherwise; the tab filter is applied
    to that set. *)
Theorem bookings_page_visibility `{Builtins} (db : DataStore) (now_year : Z)
    (request : Request) (user : User.t) (y : Z) :
  get_current_user db request = Some user →
  selected_year_of request now_year = Ok y →
  well_dated (enhance db <$> visible_bookings db user) →
  ∃ ctx,
    bookings_page db now_year request = Ok (TemplateResponse "bookings.html" ctx)
    ∧ Enhanced.booking <$> BookingsCtx.bookings ctx = visible_bookings db user
    ∧ ((User.role user = STAFF ∨ User.role user = ADMIN) →
       Enhanced.booking <$> BookingsCtx.bookings ctx = bookings db)
    ∧ (¬ (User.role user = STAFF ∨ User.role user = ADMIN) →
       Enhanced.booking <$> BookingsCtx.bookings ctx
       = filter (λ b, Booking.userId b = User.id user) (bookings db))
    ∧ filter_by_tab (BookingsCtx.bookings ctx)
        (default "PENDING" (query_params request !! "tab"))
        (logged_ids_of (logs db)) (Some y)
      = Ok (BookingsCtx.filtered_bookings ctx).
Proof.
  intros Hu Hy Hwd.
  destruct (bookings_page_ok db now_year request user y Hu Hy Hwd)
    as (fb & yrs & Hfb & _ & Hpage).
  eexists. split; [exact Hpage|]. cbn [bookings_ctx BookingsCtx.bookings
    BookingsCtx.filtered_bookings].
  assert (Hback : Enhanced.booking <$> (enhance db <$> visible_bookings db user)
                  = visible_bookings db user).
  { rewrite <- list_fmap_compose. apply list_fmap_id. }
  rewrite Hback. split_and!; [done| | |done].
  - intros Hr. unfold visible_bookings. by rewrite decide_True.
  - intros Hr. unfold visible_bookings. by rewrite decide_False.
Qed.

(** The student [u3] sees the two bookings they created. *)
Lemma bookings_page_visibility_witness :
  get_current_user demo (request_of "u3" [("tab", "PENDING")])
    = Some (User.mk "u3" "Lê Văn Sinh Viên" STUDENT "Lớp KTPM" 0 false "123@")
  ∧ ∃ ctx,
      bookings_page demo 2026 (request_of "u3" [("tab", "PENDING")])
        = Ok (TemplateResponse "bookings.html" ctx)
      ∧ Enhanced.booking <$> BookingsCtx.bookings ctx
        = [Booking.mk "b1" "u3" "e1" "2024-05-01T09:00:00"
                      "2024-05-01T10:00:00" COMPLETED;
           Booking.mk "b2" "u3" "e2" "2020-03-01" "2020-03-02" CANCELLED].
Proof.
  split; [vm_compute; reflexivity|].
  destruct (bookings_page_visibility demo 2026
              (request_of "u3" [("tab", "PENDING")])
              (User.mk "u3" "Lê Văn Sinh Viên" STUDENT "Lớp KTPM" 0 false "123@")
              2026)
    as (ctx & Hpage & Hvis & _); [vm_compute; reflexivity ..| |].
  - well_dated_by_eval.
  - exists ctx. split; [exact Hpage|]. rewrite Hvis. vm_compute. reflexivity.
Defined.

(** C3 (amended). On the HISTORY tab the page always filters by a year: the
    [year] parameter when the request gives one, the current calendar year
    when it gives none.  For a logged-in user, a selected year other than 0
    and visible history bookings with readable start times, the filtered list
    is exactly the visible bookings whose status is COMPLETED, CANCELLED or
    REJECTED and whose start time falls in the selected year. *)
Theorem history_tab_page `{Builtins} (db : DataStore) (now_year : Z)
    (request : Request) (user : User.t) (y : Z) :
  get_current_user db request = Some user →
  query_params request !! "tab" = Some "HISTORY" →
  selected_year_of request now_year = Ok y →
  y ≠ 0 →
  well_dated (enhance db <$> visible_bookings db user) →
  ∃ ctx,
    bookings_page db now_year request = Ok (TemplateResponse "bookings.html" ctx)
    ∧ BookingsCtx.bookings ctx = enhance db <$> visible_bookings db user
    ∧ BookingsCtx.filtered_bookings ctx
      = history_spec (BookingsCtx.bookings ctx) (Some y)
    ∧ (∀ b, b ∈ BookingsCtx.filtered_bookings ctx
            ↔ b ∈ BookingsCtx.bookings ctx ∧ in_history b ∧ in_year y b)
    ∧ y = default now_year (requested_year request).
Proof.
  intros Hu Htab Hy Hy0 Hwd.
  destruct (bookings_page_ok db now_year request user y Hu Hy Hwd)
    as (fb & yrs & Hfb & _ & Hpage).
  eexists. split; [exact Hpage|]. cbn [bookings_ctx BookingsCtx.bookings
    BookingsCtx.filtered_bookings].
  assert (Hspec : fb = history_spec (enhance db <$> visible_bookings db user)
                                    (Some y)).
  { rewrite Htab in Hfb. unfold filter_by_tab in Hfb. simpl in Hfb.
    rewrite decide_True in Hfb by done.
    rewrite filter_start_year_ok in Hfb by by apply well_dated_history.
    injection Hfb as <-. apply (filter_history_spec _ (Some y)). }
  split_and!; [done | done | |].
  - intros b. rewrite Hspec. unfold history_spec.
    rewrite list_elem_of_filter. simpl. tauto.
  - unfold selected_year_of, requested_year in *.
    destruct (query_params request !! "year") as [s|]; simpl.
    + destruct (int_of_str s); simpl; congruence.
    + congruence.
Qed.

(** The student [u3] asking for the history of 2020. *)
Lemma history_tab_page_witness :
  ∃ ctx,
    bookings_page demo 2026 (request_of "u3" [("tab", "HISTORY"); ("year", "2020")])
      = Ok (TemplateResponse "bookings.html" ctx)
    ∧ Enhanced.booking <$> BookingsCtx.filtered_bookings ctx
      = [Booking.mk "b2" "u3" "e2" "2020-03-01" "2020-03-02" CANCELLED].
Proof.
  destruct (history_tab_page demo 2026
              (request_of "u3" [("tab", "HISTORY"); ("year", "2020")])
              (User.mk "u3" "Lê Văn Sinh Viên" STUDENT "Lớp KTPM" 0 false "123@")
              2020)
    as (ctx & Hpage & Hall & Hfiltered & _);
    [vm_compute; reflexivity .. | | |].
  - discriminate.
  - well_dated_by_eval.
  - exists ctx. split; [exact Hpage|]. rewrite Hfiltered, Hall.
    vm_compute. reflexivity.
Defined.

(** C3, as stated, fails: without a [year] parameter the HISTORY tab of a
    staff member is empty in 2026 over a store whose history bookings started
    in 2024 and 2020, where no year restriction would list both. *)
Lemma history_tab_counterexample :
  ∃ ctx,
    bookings_page demo 2026 (request_of "u2" [("tab", "HISTORY")])
      = Ok (TemplateResponse "bookings.html" ctx)
    ∧ requested_year (request_of "u2" [("tab", "HISTORY")]) = None
    ∧ BookingsCtx.filtered_bookings ctx = []
    ∧ Enhanced.booking <$>
        history_spec (BookingsCtx.bookings ctx)
                     (requested_year (request_of "u2" [("tab", "HISTORY")]))
      = [Booking.mk "b1" "u3" "e1" "2024-05-01T09:00:00"
                    "2024-05-01T10:00:00" COMPLETED;
         Booking.mk "b2" "u3" "e2" "2020-03-01" "2020-03-02" CANCELLED].
Proof. eexists. split_and!; vm_compute; reflexivity. Qed.

(** The tab filter itself, called without a year or with the year 0, applies
    no year restriction; [bookings_page] never calls it without a year. *)
Lemma filter_by_tab_history_no_year `{Builtins} (bookings : list Enhanced.t)
    (logged : gset string) (year : option Z) :
  year = None ∨ year = Some 0 →
  filter_by_tab bookings "HISTORY" logged year = Ok (history_spec bookings None).
Proof.
  intros Hyear. unfold filter_by_tab. simpl.
  rewrite <- (filter_history_spec bookings None).
  rewrite (filter_all (year_allows None)) by done.
  by destruct Hyear as [->| ->].
Qed.

(** C4. Two requests with the same cookies and the same [year] parameter,
    whatever their tabs, get the same outcome as far as the badges go: the
    same five counts and the same year list, or a failure in both.  When the
    page is rendered the counts are those of the whole visible set and the
    year list is the one computed from it. *)
Theorem badges_ignore_tab `{Builtins} (db : DataStore) (now_year : Z)
    (r1 r2 : Request) :
  cookies r1 = cookies r2 →
  query_params r1 !! "year" = query_params r2 !! "year" →
  page_badges (bookings_page db now_year r1)
    = page_badges (bookings_page db now_year r2)
  ∧ ∀ template ctx,
      bookings_page db now_year r1 = Ok (TemplateResponse template ctx) →
      ∃ user,
        get_current_user db r1 = Some user
        ∧ BookingsCtx.bookings ctx = enhance db <$> visible_bookings db user
        ∧ history_years (BookingsCtx.bookings ctx) now_year
          = Ok (BookingsCtx.history_years ctx)
        ∧ badges_of ctx
          = counts_over (BookingsCtx.bookings ctx) (logged_ids_of (logs db))
                        (BookingsCtx.history_years ctx).
Proof.
  intros Hcookies Hyear.
  assert (Huser : get_current_user db r1 = get_current_user db r2).
  { unfold get_current_user. by rewrite Hcookies. }
  assert (Hsel : selected_year_of r1 now_year = selected_year_of r2 now_year).
  { unfold selected_year_of. by rewrite Hyear. }
  destruct (get_current_user db r1) as [user|] eqn:Hu.
  - split.
    + rewrite !(page_badges_normal _ _ _ user) by done. by rewrite Hsel.
    + intros template ctx. rewrite (bookings_page_unfold _ _ _ _ Hu). cbv zeta.
      destruct (selected_year_of r1 now_year) as [y|]; [|done].
      cbn [mbind result_bind].
      destruct (filter_by_tab _ _ _ _) as [fb|]; [|done].
      cbn [mbind result_bind].
      destruct (history_years _ _) as [yrs|] eqn:Hyrs; [|done].
      cbn [mbind result_bind]. intros [= <- <-]. exists user.
      split_and!; [done | done | exact Hyrs | apply badges_of_ctx].
  - split.
    + unfold bookings_page. by rewrite Hu, <- Huser.
    + intros template ctx. unfold bookings_page. by rewrite Hu.
Qed.

(** The staff member [u2] on the HISTORY and on the PENDING tab. *)
Lemma badges_ignore_tab_witness :
  page_badges (bookings_page demo 2026 (request_of "u2" [("tab", "HISTORY")]))
  = page_badges (bookings_page demo 2026 (request_of "u2" [("tab", "PENDING")])).
Proof.
  refine (proj1 (badges_ignore_tab demo 2026
                   (request_of "u2" [("tab", "HISTORY")])
                   (request_of "u2" [("tab", "PENDING")]) _ _));
    vm_compute; reflexivity.
Defined.

Example badges_demo :
  page_badges (bookings_page demo 2026 (request_of "u2" [("tab", "HISTORY")]))
  = Ok (Some {| pending := 1; approved := 0; active := 0; waiting_log := 0;
                history := 2; years := [2024; 2020] |}).
Proof. vm_compute. reflexivity. Qed.

(** C10. When a logged-in request carries a [year] parameter that [int]
    rejects, the page raises [ValueError] instead of rendering, whatever the
    tab parameter is set to, also when it is absent. *)
Theorem bookings_page_bad_year `{Builtins} (db : DataStore) (now_year : Z)
    (request : Request) (user : User.t) (s : string) :
  get_current_user db request = Some user →
  query_params request !! "year" = Some s →
  int_of_str s = None →
  ∀ tab, bookings_page db now_year (with_tab tab request) = Raise ValueError.
Proof.
  intros Hu Hs Hint tab.
  assert (Hu' : get_current_user db (with_tab tab request) = Some user) by done.
  rewrite (bookings_page_unfold _ _ _ _ Hu'). cbv zeta.
  unfold selected_year_of.
  assert (Hyear : query_params (with_tab tab request) !! "year" = Some s).
  { destruct tab; simpl;
      [by rewrite lookup_insert_ne | by rewrite lookup_delete_ne]. }
  by rewrite Hyear, Hint.
Qed.

(** [year=abc] on the HISTORY tab, on the PENDING tab and without a tab. *)
Lemma bookings_page_bad_year_witness :
  bookings_page demo 2026
    (with_tab (Some "HISTORY") (request_of "u3" [("year", "abc")]))
    = Raise ValueError
  ∧ bookings_page demo 2026
      (with_tab (Some "PENDING") (request_of "u3" [("year", "abc")]))
    = Raise ValueError
  ∧ bookings_page demo 2026 (with_tab None (request_of "u3" [("year", "abc")]))
    = Raise ValueError.
Proof.
  split_and!;
    apply (bookings_page_bad_year demo 2026 (request_of "u3" [("year", "abc")])
             (User.mk "u3" "Lê Văn Sinh Viên" STUDENT "Lớp KTPM" 0 false "123@")
             "abc"); vm_compute; reflexivity.
Defined.

(** * Properties of the other handlers *)

(** ** Gate, login and lookups *)

Lemma require_login_None (db : DataStore) (request : Request) :
  require_login db request = None ↔ is_Some (get_current_user db request).
Proof.
  unfold require_login. destruct (get_current_user db request); split;
    try done; try (by eexists); by intros [? ?].
Qed.

Lemma require_staff_None (db : DataStore) (request : Request) :
  require_staff db request = None
  ↔ ∃ u, get_current_user db request = Some u
         ∧ (User.role u = STAFF ∨ User.role u = ADMIN).
Proof.
  unfold require_staff. destruct (get_current_user db request) as [u|].
  - case_decide as Hr; rewrite role_in_staff_admin in Hr.
    + split; [done | intros (u' & [= <-] & ?); done].
    + try apply dec_stable in Hr. split; [by exists u | done].
  - split; [done | by intros (? & ? & _)].
Qed.

Lemma require_admin_None (db : DataStore) (request : Request) :
  require_admin db request = None
  ↔ ∃ u, get_current_user db request = Some u ∧ User.role u = ADMIN.
Proof.
  unfold require_admin. destruct (get_current_user db request) as [u|].
  - case_decide as Hr.
    + split; [done | intros (u' & [= <-] & Hu)]. by rewrite Hu in Hr.
    + apply (inj UserRole_value _ ADMIN) in Hr.
      split; [by exists u | done].
  - split; [done | by intros (? & ? & _)].
Qed.

(** X1. The three guards are nested: whoever passes [require_admin] passes
    [require_staff], and whoever passes [require_staff] passes
    [require_login]; a guard that stops a request sends an anonymous one to
    [/login] and a logged-in one to [/]. *)
Theorem guards_nested (db : DataStore) (request : Request) :
  (require_admin db request = None → require_staff db request = None)
  ∧ (require_staff db request = None → require_login db request = None)
  ∧ (∀ guard r, guard ∈ [require_login; require_staff; require_admin] →
       guard db request = Some r →
       r = redirect_to (match get_current_user db request with
                        | Some _ => "/"
                        | None => "/login"
                        end)).
Proof.
  split_and!.
  - rewrite require_admin_None, require_staff_None.
    intros (u & ? & ?). exists u. auto.
  - rewrite require_staff_None, require_login_None. intros (u & -> & _). by eexists.
  - intros guard r Hg.
    repeat (apply elem_of_cons in Hg as [->|Hg]); [| | |by apply elem_of_nil in Hg];
      unfold require_login, require_staff, require_admin;
      destruct (get_current_user db request); try case_decide; congruence.
Qed.

(** X2. The cookie a successful login sets resolves, on any later request
    carrying it, to the user who logged in, provided the user id is not
    empty. *)
Theorem login_cookie_resolves (db : DataStore) (user_id password : string)
    (query : gmap string string) :
  credentials_ok db user_id password →
  user_id ≠ "" →
  ∃ c u,
    set_cookies (login_api db user_id password) = [c]
    ∧ get_user db user_id = Some u
    ∧ get_current_user db
        {| cookies := {[ key c := value c ]}; query_params := query |}
      = Some u.
Proof.
  intros Hok Hne.
  destruct (login_api_cases db user_id password)
    as [[_ (u & Hu & ->)]|[Hno _]]; [|done].
  eexists _, u. split_and!; [done | done |]. simpl.
  unfold get_current_user. simpl. rewrite lookup_singleton_eq.
  apply get_user_id in Hu as Hid. destruct Hid as [-> _].
  by rewrite decide_False.
Qed.

Lemma login_cookie_resolves_witness :
  ∃ c u,
    set_cookies (login_api seed "u2" "123@") = [c]
    ∧ get_user seed "u2" = Some u
    ∧ get_current_user seed {| cookies := {[ key c := value c ]};
                               query_params := ∅ |} = Some u.
Proof.
  apply (login_cookie_resolves seed "u2" "123@" ∅); [|done].
  eexists. split_and!; vm_compute; reflexivity.
Defined.



Lemma head_filter_first {A} (P : A → Prop) `{!∀ x, Decision (P x)} (l : list A) :
  match head (filter P l) with
  | None => ∀ x, x ∈ l → ¬ P x
  | Some x => ∃ l1 l2, l = l1 ++ x :: l2 ∧ P x ∧ ∀ y, y ∈ l1 → ¬ P y
  end.
Proof.
  induction l as [|a l IH]; simpl.
  { intros x Hx. by apply elem_of_nil in Hx. }
  rewrite filter_cons. destruct (decide (P a)) as [Ha|Ha]; simpl.
  - exists [], l. split_and!; [done | done |].
    intros y Hy. by apply elem_of_nil in Hy.
  - destruct (head (filter P l)) as [x|].
    + destruct IH as (l1 & l2 & -> & Hx & Hl1). exists (a :: l1), l2.
      split_and!; [done | done |].
      intros y [->|Hy]%elem_of_cons; [done | by apply Hl1].
    + intros x [->|Hx]%elem_of_cons; [done | by apply IH].
Qed.

Lemma lookups_find_first_aux (db : DataStore) (i : string) :
  match get_user db i with
  | None => ∀ u, u ∈ users db → User.id u ≠ i
  | Some u => ∃ l1 l2, users db = l1 ++ u :: l2 ∧ User.id u = i
                       ∧ ∀ v, v ∈ l1 → User.id v ≠ i
  end
  ∧ match get_equipment db i with
    | None => ∀ e, e ∈ equipment db → Equipment.id e ≠ i
    | Some e => ∃ l1 l2, equipment db = l1 ++ e :: l2 ∧ Equipment.id e = i
                         ∧ ∀ v, v ∈ l1 → Equipment.id v ≠ i
    end.
Proof.
  split.
  - apply (head_filter_first (λ u, User.id u = i)).
  - apply (head_filter_first (λ e, Equipment.id e = i)).
Qed.

(** X4. A lookup by id answers with the first record of that id, so a later
    record with the same id is never found; it answers nothing exactly when
    no record has the id.  This holds of [get_user] and of
    [get_equipment]. *)
Theorem lookups_find_first (db : DataStore) (i : string) :
  (match get_user db i with
   | None => ∀ u, u ∈ users db → User.id u ≠ i
   | Some u => ∃ l1 l2, users db = l1 ++ u :: l2 ∧ User.id u = i
                        ∧ ∀ v, v ∈ l1 → User.id v ≠ i
   end)
  ∧ (get_user db i = None ↔ ∀ u, u ∈ users db → User.id u ≠ i)
  ∧ (match get_equipment db i with
     | None => ∀ e, e ∈ equipment db → Equipment.id e ≠ i
     | Some e => ∃ l1 l2, equipment db = l1 ++ e :: l2 ∧ Equipment.id e = i
                          ∧ ∀ v, v ∈ l1 → Equipment.id v ≠ i
     end)
  ∧ (get_equipment db i = None
     ↔ ∀ e, e ∈ equipment db → Equipment.id e ≠ i).
Proof.
  destruct (lookups_find_first_aux db i) as [Hu He].
  split_and!; [done | | done |].
  - destruct (get_user db i) as [u|]; [|done].
    destruct Hu as (l1 & l2 & Hl & Hid & _). split; [done|].
    intros Hall. destruct (Hall u); [|done].
    rewrite Hl. apply elem_of_app. right. apply elem_of_cons. by left.
  - destruct (get_equipment db i) as [e|]; [|done].
    destruct He as (l1 & l2 & Hl & Hid & _). split; [done|].
    intros Hall. destruct (Hall e); [|done].
    rewrite Hl. apply elem_of_app. right. apply elem_of_cons. by left.
Qed.

(** ** Equipment pages *)

(** X5. Two non-empty search strings with the same lower-casing list the
    same equipment, under every status filter: the search does not see the
    case of what was typed. *)
Theorem equipment_list_search_case `{Builtins} (db : DataStore)
    (request : Request) (search1 search2 status : string) :
  search1 ≠ "" → search2 ≠ "" →
  str_lower search1 = str_lower search2 →
  ∃ ctx1 ctx2,
    equipment_list db request search1 status
      = TemplateResponse "equipment_list.html" ctx1
    ∧ equipment_list db request search2 status
      = TemplateResponse "equipment_list.html" ctx2
    ∧ EquipmentListCtx.equipment ctx1 = EquipmentListCtx.equipment ctx2.
Proof.
  intros H1 H2 Hlow. eexists _, _. split_and!; [reflexivity | reflexivity |].
  cbn [EquipmentListCtx.equipment].
  rewrite !listed_code. apply list_filter_iff. intros e.
  unfold listed, ci_substring. rewrite Hlow. tauto.
Qed.

(** [OLYMPUS] and [olympus] over the seeded store. *)
Lemma equipment_list_search_case_witness :
  ∃ ctx1 ctx2,
    equipment_list seed (anonymous []) "OLYMPUS" "ALL"
      = TemplateResponse "equipment_list.html" ctx1
    ∧ equipment_list seed (anonymous []) "olympus" "ALL"
      = TemplateResponse "equipment_list.html" ctx2
    ∧ EquipmentListCtx.equipment ctx1 = EquipmentListCtx.equipment ctx2.
Proof.
  apply (equipment_list_search_case seed (anonymous []) "OLYMPUS" "olympus"
           "ALL"); [done | done | vm_compute; reflexivity].
Defined.

(** X6. The detail page of an unknown equipment id is a redirect to the
    listing.  For a known id it shows the first equipment with that id
    together with exactly the usage logs whose [equipmentId] is that id, in
    store order; a manager id that names no user is tolerated and shown as
    no manager. *)
Theorem equipment_detail_spec (db : DataStore) (request : Request) (i : string) :
  match equipment_detail db request i with
  | Redirect r =>
      r = redirect_to "/equipment" ∧ ∀ e, e ∈ equipment db → Equipment.id e ≠ i
  | TemplateResponse template ctx =>
      template = "equipment_detail.html"
      ∧ get_equipment db i = Some (EquipmentDetailCtx.item ctx)
      ∧ Equipment.id (EquipmentDetailCtx.item ctx) = i
      ∧ EquipmentDetailCtx.logs ctx
        = filter (λ l, UsageLog.equipmentId l = i) (logs db)
      ∧ (∀ l, l ∈ EquipmentDetailCtx.logs ctx
              ↔ l ∈ logs db ∧ UsageLog.equipmentId l = i)
      ∧ (EquipmentDetailCtx.manager ctx = None
         ↔ ∀ u, u ∈ users db →
                User.id u ≠ Equipment.managerId (EquipmentDetailCtx.item ctx))
  end.
Proof.
  unfold equipment_detail.
  pose proof (proj2 (lookups_find_first_aux db i)) as He.
  destruct (get_equipment db i) as [item|].
  - destruct He as (l1 & l2 & _ & Hid & _). simpl. split_and!; try done.
    + intros l. rewrite list_elem_of_filter. tauto.
    + pose proof (proj1 (lookups_find_first_aux db (Equipment.managerId item)))
        as Hm.
      destruct (get_user db (Equipment.managerId item)) as [m|]; [|done].
      destruct Hm as (m1 & m2 & Hus & Hmid & _). split; [done|].
      intros Hall. destruct (Hall m); [|done].
      rewrite Hus. apply elem_of_app. right. apply elem_of_cons. by left.
  - done.
Qed.

(** ** Equipment statistics *)

Lemma total_of_bump (k : string) (d : gmap string nat) :
  total_of (bump k d) = S (total_of d).
Proof.
  unfold total_of, bump.
  assert (Hcomm : ∀ (m : gmap string nat) (j1 j2 : string) (z1 z2 y : nat),
            j1 ≠ j2 → m !! j1 = Some z1 → m !! j2 = Some z2 →
            (z1 + (z2 + y) = z2 + (z1 + y))%nat) by (intros; lia).
  destruct (d !! k) as [v|] eqn:Hk; simpl.
  - rewrite <- insert_delete_eq.
    rewrite map_fold_insert_L; [|by apply Hcomm | by rewrite lookup_delete_eq].
    rewrite (map_fold_delete_L _ _ k v d); [lia | by apply Hcomm | done].
  - rewrite map_fold_insert_L; [done | by apply Hcomm | done].
Qed.

Lemma lookup_bump (k x : string) (d : gmap string nat) :
  default 0%nat (bump k d !! x)
  = (default 0%nat (d !! x) + if decide (k = x) then 1 else 0)%nat.
Proof.
  unfold bump. destruct (decide (k = x)) as [->|Hne].
  - by rewrite lookup_insert_eq.
  - rewrite lookup_insert_ne by done. lia.
Qed.

Lemma bump_positive (k x : string) (d : gmap string nat) :
  (∀ y n, d !! y = Some n → (0 < n)%nat) →
  ∀ n, bump k d !! x = Some n → (0 < n)%nat.
Proof.
  intros Hd n. unfold bump. destruct (decide (k = x)) as [->|Hne].
  - rewrite lookup_insert_eq. intros [= <-]. lia.
  - rewrite lookup_insert_ne by done. apply Hd.
Qed.

Lemma tally_spec {A} (key : A → string) (items : list A) (d : gmap string nat) :
  total_of (tally key items d) = (total_of d + length items)%nat
  ∧ (∀ x, default 0%nat (tally key items d !! x)
          = (default 0%nat (d !! x)
             + length (filter (λ e, key e = x) items))%nat)
  ∧ ((∀ y n, d !! y = Some n → (0 < n)%nat) →
     ∀ y n, tally key items d !! y = Some n → (0 < n)%nat).
Proof.
  revert d. induction items as [|e items IH]; intros d.
  { simpl. split_and!; [lia | intros; simpl; lia | done]. }
  unfold tally in *. cbn [foldl].
  destruct (IH (bump (key e) d)) as (Htot & Hlook & Hpos). split_and!.
  - rewrite Htot, total_of_bump. simpl. lia.
  - intros x. rewrite Hlook, lookup_bump, filter_cons.
    destruct (decide (key e = x)); simpl; lia.
  - intros Hd. apply Hpos. intros y n. by apply bump_positive.
Qed.

Lemma count_equipment_tally (items : list Equipment.t) :
  count_equipment items
  = (tally status_key items ∅, tally department_key items ∅).
Proof.
  unfold count_equipment, tally.
  generalize (∅ : gmap string nat) at 1 3 as d1.
  generalize (∅ : gmap string nat) as d2.
  induction items as [|e items IH]; intros d2 d1; [done|].
  simpl. apply IH.
Qed.

Lemma status_key_value (e : Equipment.t) :
  status_key e = EquipmentStatus_value (Equipment.status e).
Proof. unfold status_key. by destruct (Equipment.status e). Qed.

Lemma tally_empty_lookup {A} (key : A → string) (items : list A) (x : string) :
  tally key items ∅ !! x
  = match length (filter (λ e, key e = x) items) with
    | O => None
    | S n => Some (S n)
    end.
Proof.
  destruct (tally_spec key items ∅) as (_ & Hlook & Hpos).
  specialize (Hlook x). rewrite lookup_empty in Hlook. simpl in Hlook.
  destruct (tally key items ∅ !! x) as [n|] eqn:Hx; simpl in Hlook.
  - assert (0 < n)%nat.
    { eapply Hpos; [|done]. intros y m. by rewrite lookup_empty. }
    rewrite <- Hlook. destruct n; [lia | done].
  - by rewrite <- Hlook.
Qed.

(** X7. For a staff member or an administrator the statistics page counts
    every equipment once in each mapping: the counts of [by_status] add up to
    the total, and so do the counts of [by_department]; the total is the size
    of the store's equipment list. *)
Theorem equipment_stats_totals (db : DataStore) (request : Request) :
  require_staff db request = None →
  ∃ ctx,
    equipment_stats_page db request = TemplateResponse "equipment_stats.html" ctx
    ∧ EquipmentStatsCtx.total_equipment ctx = length (equipment db)
    ∧ total_of (EquipmentStatsCtx.by_status ctx)
      = EquipmentStatsCtx.total_equipment ctx
    ∧ total_of (EquipmentStatsCtx.by_department ctx)
      = EquipmentStatsCtx.total_equipment ctx.
Proof.
  intros Hstaff. unfold equipment_stats_page. rewrite Hstaff.
  eexists. split; [reflexivity|]. simpl. rewrite count_equipment_tally. simpl.
  split_and!; [done | |].
  - by destruct (tally_spec status_key (equipment db) ∅) as (-> & _).
  - by destruct (tally_spec department_key (equipment db) ∅) as (-> & _).
Qed.

(** The staff member [u2] over the seeded store. *)
Lemma equipment_stats_totals_witness :
  ∃ ctx,
    equipment_stats_page seed (request_of "u2" [])
      = TemplateResponse "equipment_stats.html" ctx
    ∧ EquipmentStatsCtx.total_equipment ctx = length (equipment seed)
    ∧ total_of (EquipmentStatsCtx.by_status ctx)
      = EquipmentStatsCtx.total_equipment ctx
    ∧ total_of (EquipmentStatsCtx.by_department ctx)
      = EquipmentStatsCtx.total_equipment ctx.
Proof.
  apply (equipment_stats_totals seed (request_of "u2" [])).
  vm_compute. reflexivity.
Defined.

(** X8. On the statistics page a status is a key of [by_status] exactly when
    some equipment has it, with the number of such equipment as its count,
    and a department name is a key of [by_department] exactly when some
    equipment is filed under it, an equipment with no department or an empty
    one being filed under [N/A]; no key ever carries the count 0. *)
Theorem equipment_stats_counts (db : DataStore) (request : Request) :
  require_staff db request = None →
  ∃ ctx,
    equipment_stats_page db request = TemplateResponse "equipment_stats.html" ctx
    ∧ (∀ st, EquipmentStatsCtx.by_status ctx !! EquipmentStatus_value st
             = match length (filter (λ e, Equipment.status e = st)
                                    (equipment db)) with
               | O => None
               | S n => Some (S n)
               end)
    ∧ (∀ k, (∀ st, k ≠ EquipmentStatus_value st) →
            EquipmentStatsCtx.by_status ctx !! k = None)
    ∧ (∀ k, EquipmentStatsCtx.by_department ctx !! k
            = match length (filter (λ e, department_key e = k)
                                   (equipment db)) with
              | O => None
              | S n => Some (S n)
              end)
    ∧ (∀ e, department_key e = "N/A"
            ↔ Equipment.usingDepartment e = None
              ∨ Equipment.usingDepartment e = Some ""
              ∨ Equipment.usingDepartment e = Some "N/A").
Proof.
  intros Hstaff. unfold equipment_stats_page. rewrite Hstaff.
  eexists. split; [reflexivity|]. simpl. rewrite count_equipment_tally. simpl.
  split_and!.
  - intros st. rewrite tally_empty_lookup.
    rewrite (list_filter_iff _ (λ e, Equipment.status e = st)); [done|].
    intros e. rewrite status_key_value.
    split; [apply (inj _) | by intros ->].
  - intros k Hk. rewrite tally_empty_lookup.
    rewrite (list_filter_iff _ (λ _, False)).
    + by induction (equipment db).
    + intros e. rewrite status_key_value. split; [|done].
      intros <-. by destruct (Hk (Equipment.status e)).
  - intros k. apply tally_empty_lookup.
  - intros e. unfold department_key.
    destruct (Equipment.usingDepartment e) as [d|]; [|split; auto].
    case_decide as Hd; [subst; split; auto|].
    split; [intros ->; auto | intros [?|[[= ?]|[= ?]]]; done].
Qed.

(** The staff member [u2] over the seeded store. *)
Lemma equipment_stats_counts_witness :
  ∃ ctx,
    equipment_stats_page seed (request_of "u2" [])
      = TemplateResponse "equipment_stats.html" ctx
    ∧ EquipmentStatsCtx.by_status ctx
      = {[ "AVAILABLE" := 1%nat; "MAINTENANCE" := 1%nat ]}
    ∧ EquipmentStatsCtx.by_department ctx
      = {[ "Bộ môn Sinh học" := 1%nat; "N/A" := 1%nat ]}.
Proof.
  destruct (equipment_stats_counts seed (request_of "u2" []))
    as (ctx & Hpage & _); [vm_compute; reflexivity|].
  exists ctx. split; [exact Hpage|].
  assert (Hctx : TemplateResponse "equipment_stats.html" ctx
                 = equipment_stats_page seed (request_of "u2" [])) by done.
  vm_compute in Hctx. injection Hctx as ->. split; vm_compute; reflexivity.
Defined.

(** ** Home page *)

Lemma visits_snoc (app : App) (requests : list Request) (r : Request) :
  visits app (requests ++ [r]) = (home (visits app requests) r).2.
Proof. unfold visits. by rewrite foldl_app. Qed.

(** X9. Every request to the home page, logged in or not, adds one to the
    visitor counter and is shown the count it has just made: after any list
    of requests the counter has grown by the length of the list, and nothing
    else of the application has changed. *)
Theorem home_counts_visits (app : App) (requests : list Request)
    (cfg : HomePageConfig.t) (r : Request) :
  home_config app = Some cfg →
  ∃ cfg' ctx,
    home_config (visits app requests) = Some cfg'
    ∧ HomePageConfig.visitorCount cfg'
      = HomePageConfig.visitorCount cfg + Z.of_nat (length requests)
    ∧ HomePageConfig.featuredEquipmentIds cfg'
      = HomePageConfig.featuredEquipmentIds cfg
    ∧ HomePageConfig.appName cfg' = HomePageConfig.appName cfg
    ∧ store (visits app requests) = store app
    ∧ inventorySessions (visits app requests) = inventorySessions app
    ∧ (home (visits app requests) r).1 = TemplateResponse "index.html" ctx
    ∧ HomeCtx.visit_count ctx
      = HomePageConfig.visitorCount cfg + Z.of_nat (length requests) + 1.
Proof.
  intros Hcfg.
  assert (Hstate : ∃ cfg',
    home_config (visits app requests) = Some cfg'
    ∧ HomePageConfig.visitorCount cfg'
      = HomePageConfig.visitorCount cfg + Z.of_nat (length requests)
    ∧ HomePageConfig.featuredEquipmentIds cfg'
      = HomePageConfig.featuredEquipmentIds cfg
    ∧ HomePageConfig.appName cfg' = HomePageConfig.appName cfg
    ∧ store (visits app requests) = store app
    ∧ inventorySessions (visits app requests) = inventorySessions app).
  { induction requests as [|q requests IH] using rev_ind.
    - exists cfg. simpl. split_and!; try done. lia.
    - destruct IH as (c & Hc & Hn & Hf & Ha & Hs & Hi).
      rewrite visits_snoc. unfold home. rewrite Hc. simpl.
      eexists. split; [reflexivity|]. simpl. rewrite length_app. simpl.
      split_and!; try done. lia. }
  destruct Hstate as (cfg' & Hc & Hn & Hf & Ha & Hs & Hi).
  exists cfg'. unfold home at 1. rewrite Hc. simpl.
  eexists. split_and!; try done. simpl. lia.
Qed.

(** Three visits to the seeded application, one of them logged in. *)
Lemma home_counts_visits_witness :
  ∃ cfg' ctx,
    home_config (visits seed_app [anonymous []; request_of "u3" [];
                                  anonymous []]) = Some cfg'
    ∧ HomePageConfig.visitorCount cfg' = 15303
    ∧ (home (visits seed_app [anonymous []; request_of "u3" []; anonymous []])
            (anonymous [])).1 = TemplateResponse "index.html" ctx
    ∧ HomeCtx.visit_count ctx = 15304.
Proof.
  destruct (home_counts_visits seed_app
              [anonymous []; request_of "u3" []; anonymous []]
              (HomePageConfig.mk "QUẢN LÝ TB KHOA KHOA HỌC CƠ BẢN"
                                 ["e1"; "e2"] 15300)
              (anonymous []) eq_refl)
    as (cfg' & ctx & Hc & Hn & _ & _ & _ & _ & Hp & Hv).
  exists cfg', ctx. split_and!; [exact Hc | exact Hn | exact Hp | exact Hv].
Defined.

(** ** More on the bookings page *)

Lemma history_year_set_cases `{Builtins} (l : list Enhanced.t) :
  (well_dated l ∧ ∃ ys, history_year_set l = Ok ys)
  ∨ (history_year_set l = Raise ValueError
     ∧ ∃ b, b ∈ l ∧ in_history b
            ∧ fromisoformat_year (get_startTime b) = None).
Proof.
  induction l as [|b l IH].
  { left. split; [|by eexists]. intros b Hb. by apply elem_of_nil in Hb. }
  cbn [history_year_set].
  destruct (decide (get_status b ∈ HISTORY_STATUSES)) as [Hh|Hh];
    rewrite get_status_history in Hh.
  - destruct (fromisoformat_year (get_startTime b)) as [y|] eqn:Hy.
    + destruct IH as [[Hwd [ys ->]]|[-> (b' & Hin & ? & ?)]].
      * left. split; [|by eexists]. apply well_dated_cons. split; [|done].
        intros _. rewrite Hy. by eexists.
      * right. split; [done|]. exists b'.
        split_and!; [apply elem_of_cons; by right | done | done].
    + right. split; [done|]. exists b.
      split_and!; [apply elem_of_cons; by left | done | done].
  - destruct IH as [[Hwd [ys ->]]|[-> (b' & Hin & ? & ?)]].
    + left. split; [|by eexists]. by apply well_dated_cons.
    + right. split; [done|]. exists b'.
      split_and!; [apply elem_of_cons; by right | done | done].
Qed.

Lemma bookings_page_rendered `{Builtins} (db : DataStore) (now_year : Z)
    (request : Request) (template : string) (ctx : BookingsCtx.t) :
  bookings_page db now_year request = Ok (TemplateResponse template ctx) →
  ∃ user y fb yrs,
    get_current_user db request = Some user
    ∧ selected_year_of request now_year = Ok y
    ∧ filter_by_tab (enhance db <$> visible_bookings db user)
        (default "PENDING" (query_params request !! "tab"))
        (logged_ids_of (logs db)) (Some y) = Ok fb
    ∧ history_years (enhance db <$> visible_bookings db user) now_year = Ok yrs
    ∧ template = "bookings.html"
    ∧ ctx = bookings_ctx user (enhance db <$> visible_bookings db user)
              (logged_ids_of (logs db))
              (default "PENDING" (query_params request !! "tab")) y fb yrs.
Proof.
  destruct (get_current_user db request) as [user|] eqn:Hu.
  - rewrite (bookings_page_unfold _ _ _ _ Hu). cbv zeta.
    destruct (selected_year_of request now_year) as [y|]; [|done].
    cbn [mbind result_bind].
    destruct (filter_by_tab _ _ _ _) as [fb|] eqn:Hfb; [|done].
    cbn [mbind result_bind].
    destruct (history_years _ _) as [yrs|] eqn:Hyrs; [|done].
    cbn [mbind result_bind]. intros [= <- <-]. by exists user, y, fb, yrs.
  - unfold bookings_page. by rewrite Hu.
Qed.

(** X10. The bookings page fails, with [ValueError], in exactly two
    situations, both for a logged-in user: the [year] parameter is a string
    [int] rejects, or a visible booking that counts as history has a start
    time [fromisoformat] rejects.  An anonymous request is redirected to
    [/login] whatever its parameters. *)
Theorem bookings_page_failures `{Builtins} (db : DataStore) (now_year : Z)
    (request : Request) :
  (∀ e, bookings_page db now_year request = Raise e
        ↔ ∃ user,
            get_current_user db request = Some user
            ∧ ((∃ s, query_params request !! "year" = Some s
                     ∧ int_of_str s = None)
               ∨ ∃ b, b ∈ enhance db <$> visible_bookings db user
                      ∧ in_history b
                      ∧ fromisoformat_year (get_startTime b) = None))
  ∧ (get_current_user db request = None →
     bookings_page db now_year request = Ok (Redirect (redirect_to "/login"))).
Proof.
  split; [|intros Hu; unfold bookings_page; by rewrite Hu].
  intros []. destruct (get_current_user db request) as [user|] eqn:Hu.
  2:{ unfold bookings_page. rewrite Hu. split; [done | by intros (? & ? & _)]. }
  rewrite (bookings_page_unfold _ _ _ _ Hu). cbv zeta.
  pose proof (history_year_set_cases (enhance db <$> visible_bookings db user))
    as Hcases.
  unfold selected_year_of.
  destruct (query_params request !! "year") as [s|] eqn:Hs.
  - destruct (int_of_str s) as [y|] eqn:Hint; cbn [mbind result_bind].
    + destruct Hcases as [[Hwd [ys Hys]]|[Hraise Hbad]].
      * destruct (filter_by_tab_ok _ (default "PENDING"
                    (query_params request !! "tab"))
                    (logged_ids_of (logs db)) (Some y) Hwd) as [fb ->].
        unfold history_years. rewrite Hys. simpl. split; [done|].
        intros (u & [= <-] & [(s' & [= <-] & ?)|(b & Hb & Hh & Hnone)]);
          [congruence|].
        destruct (Hwd b Hb Hh) as [? ?]. congruence.
      * split; [intros _; exists user; by auto|]. intros _.
        destruct (filter_by_tab _ _ _ _) as [fb|[]]; [|done].
        cbn [mbind result_bind]. unfold history_years. by rewrite Hraise.
    + split; [intros _ | done]. exists user. split; [done|]. left. by exists s.
  - cbn [mbind result_bind].
    destruct Hcases as [[Hwd [ys Hys]]|[Hraise Hbad]].
    + destruct (filter_by_tab_ok _ (default "PENDING"
                  (query_params request !! "tab"))
                  (logged_ids_of (logs db)) (Some now_year) Hwd) as [fb ->].
      unfold history_years. rewrite Hys. simpl. split; [done|].
      intros (u & [= <-] & [(s' & ? & ?)|(b & Hb & Hh & Hnone)]); [done|].
      destruct (Hwd b Hb Hh) as [? ?]. congruence.
    + split; [intros _; exists user; by auto|]. intros _.
      destruct (filter_by_tab _ _ _ _) as [fb|[]]; [|done].
      cbn [mbind result_bind]. unfold history_years. by rewrite Hraise.
Qed.

Lemma status_cases (b : Enhanced.t) :
  (has_status PENDING b ∧ ¬ has_status APPROVED b ∧ ¬ has_status ACTIVE b
   ∧ ¬ in_history b)
  ∨ (¬ has_status PENDING b ∧ has_status APPROVED b ∧ ¬ has_status ACTIVE b
     ∧ ¬ in_history b)
  ∨ (¬ has_status PENDING b ∧ ¬ has_status APPROVED b ∧ has_status ACTIVE b
     ∧ ¬ in_history b)
  ∨ (¬ has_status PENDING b ∧ ¬ has_status APPROVED b ∧ ¬ has_status ACTIVE b
     ∧ in_history b).
Proof.
  unfold has_status, in_history. rewrite !elem_of_cons, elem_of_nil.
  destruct (Booking.status (Enhanced.booking b));
    [left | right; left | right; right; left
     | right; right; right | right; right; right | right; right; right];
    split_and!; try done; try (by auto); by intros [?|[?|[?|?]]].
Qed.

Lemma status_partition (l : list Enhanced.t) :
  (length (filter (has_status PENDING) l)
   + length (filter (has_status APPROVED) l)
   + length (filter (has_status ACTIVE) l)
   + length (filter in_history l))%nat
  = length l.
Proof.
  induction l as [|b l IH]; [done|].
  destruct (status_cases b) as [(?&?&?&?)|[(?&?&?&?)|[(?&?&?&?)|(?&?&?&?)]]];
    rewrite !filter_cons; repeat case_decide; try done; simpl; lia.
Qed.

Lemma length_filter_impl {A} (P Q : A → Prop) `{!∀ x, Decision (P x)}
    `{!∀ x, Decision (Q x)} (l : list A) :
  (∀ x, P x → Q x) → (length (filter P l) ≤ length (filter Q l))%nat.
Proof.
  intros HPQ. induction l as [|x l IH]; [done|]. rewrite !filter_cons.
  destruct (decide (P x)) as [HP|HP].
  - rewrite decide_True by auto. simpl. lia.
  - destruct (decide (Q x)); simpl; lia.
Qed.

Lemma filter_start_year_sublist `{Builtins} (year : Z) (l kept : list Enhanced.t) :
  filter_start_year year l = Ok kept → kept `sublist_of` l.
Proof.
  revert kept. induction l as [|b l IH]; intros kept.
  { intros [= <-]. constructor. }
  cbn [filter_start_year].
  destruct (fromisoformat_year (get_startTime b)) as [y|]; [|done].
  destruct (filter_start_year year l) as [k|]; [|done].
  cbn [mbind result_bind]. intros [= <-].
  case_decide; [apply sublist_skip | apply sublist_cons]; by apply IH.
Qed.

(** X11. On every rendered bookings page the badges of the PENDING, APPROVED,
    ACTIVE and HISTORY tabs add up to the number of visible bookings: each
    booking is counted under exactly one of the four; the WAITING_LOG badge
    never exceeds the HISTORY badge. *)
Theorem badges_partition `{Builtins} (db : DataStore) (now_year : Z)
    (request : Request) (template : string) (ctx : BookingsCtx.t) :
  bookings_page db now_year request = Ok (TemplateResponse template ctx) →
  (BookingsCtx.pending_count ctx + BookingsCtx.approved_count ctx
   + BookingsCtx.active_count ctx + BookingsCtx.history_count ctx)%nat
  = length (BookingsCtx.bookings ctx)
  ∧ (BookingsCtx.waiting_log_count ctx ≤ BookingsCtx.history_count ctx)%nat.
Proof.
  intros Hpage.
  destruct (bookings_page_rendered _ _ _ _ _ Hpage)
    as (user & y & fb & yrs & _ & _ & _ & _ & _ & ->).
  pose proof (badges_of_ctx user (enhance db <$> visible_bookings db user)
                (logged_ids_of (logs db))
                (default "PENDING" (query_params request !! "tab")) y fb yrs)
    as Hb.
  unfold badges_of, counts_over in Hb.
  cbn [bookings_ctx BookingsCtx.bookings BookingsCtx.pending_count
       BookingsCtx.approved_count BookingsCtx.active_count
       BookingsCtx.waiting_log_count BookingsCtx.history_count
       BookingsCtx.history_years] in Hb |- *.
  injection Hb as -> -> -> -> ->. split.
  - apply status_partition.
  - apply length_filter_impl. intros b [Hc _]. unfold has_status in Hc.
    unfold in_history. rewrite Hc. apply elem_of_cons. by left.
Qed.

(** The staff member [u2] over the sample store. *)
Lemma badges_partition_witness :
  ∃ ctx,
    bookings_page demo 2026 (request_of "u2" []) =
      Ok (TemplateResponse "bookings.html" ctx)
    ∧ (BookingsCtx.pending_count ctx + BookingsCtx.approved_count ctx
       + BookingsCtx.active_count ctx + BookingsCtx.history_count ctx)%nat
      = length (BookingsCtx.bookings ctx)
    ∧ (BookingsCtx.waiting_log_count ctx ≤ BookingsCtx.history_count ctx)%nat.
Proof.
  eexists. split; [vm_compute; reflexivity|].
  apply (badges_partition demo 2026 (request_of "u2" []) "bookings.html").
  vm_compute. reflexivity.
Defined.

(** X12. Whatever the tab and the year, a result of the tab filter is a
    sub-list of the bookings it was given: nothing is added, duplicated or
    reordered; on the PENDING, APPROVED and ACTIVE tabs every booking of the
    result has the status the tab is named after. *)
Theorem filter_by_tab_sublist `{Builtins} (bookings : list Enhanced.t)
    (tab : string) (logged : gset string) (year : option Z)
    (filtered : list Enhanced.t) :
  filter_by_tab bookings tab logged year = Ok filtered →
  filtered `sublist_of` bookings
  ∧ ∀ st, st ∈ [PENDING; APPROVED; ACTIVE] → tab = BookingStatus_value st →
          ∀ b, b ∈ filtered → has_status st b.
Proof.
  unfold filter_by_tab. intros Hf. split.
  - repeat case_decide; try (injection Hf as <-; apply sublist_filter); [|by injection Hf as <-].
    destruct year as [y|]; [case_decide|];
      try (injection Hf as <-; apply sublist_filter).
    etrans; [by eapply filter_start_year_sublist | apply sublist_filter].
  - intros st Hst -> b Hb.
    repeat (apply elem_of_cons in Hst as [->|Hst]);
      [| | |by apply elem_of_nil in Hst]; simpl in Hf;
      injection Hf as <-; apply list_elem_of_filter in Hb as [Hb _];
      by apply get_status_is.
Qed.

(** The HISTORY tab of 2020 over the sample store. *)
Lemma filter_by_tab_sublist_witness :
  ∃ filtered,
    filter_by_tab (enhance demo <$> demo_bookings) "HISTORY"
                  (logged_ids_of (logs demo)) (Some 2020) = Ok filtered
    ∧ filtered `sublist_of` (enhance demo <$> demo_bookings).
Proof.
  eexists. split; [vm_compute; reflexivity|].
  apply (filter_by_tab_sublist (enhance demo <$> demo_bookings) "HISTORY"
           (logged_ids_of (logs demo)) (Some 2020)).
  vm_compute. reflexivity.
Defined.

(** X13. On a rendered bookings page the list shown under the PENDING,
    APPROVED, ACTIVE or WAITING_LOG tab is as long as that tab's badge says;
    under the HISTORY tab, which is also filtered by year, it is at most as
    long as the HISTORY badge. *)
Theorem badge_counts_the_tab `{Builtins} (db : DataStore) (now_year : Z)
    (request : Request) (template : string) (ctx : BookingsCtx.t) :
  bookings_page db now_year request = Ok (TemplateResponse template ctx) →
  let shown := length (BookingsCtx.filtered_bookings ctx) in
  (BookingsCtx.active_tab ctx = "PENDING" →
   shown = BookingsCtx.pending_count ctx)
  ∧ (BookingsCtx.active_tab ctx = "APPROVED" →
     shown = BookingsCtx.approved_count ctx)
  ∧ (BookingsCtx.active_tab ctx = "ACTIVE" →
     shown = BookingsCtx.active_count ctx)
  ∧ (BookingsCtx.active_tab ctx = "WAITING_LOG" →
     shown = BookingsCtx.waiting_log_count ctx)
  ∧ (BookingsCtx.active_tab ctx = "HISTORY" →
     (shown ≤ BookingsCtx.history_count ctx)%nat)
  ∧ BookingsCtx.active_tab ctx
    = default "PENDING" (query_params request !! "tab").
Proof.
  intros Hpage.
  destruct (bookings_page_rendered _ _ _ _ _ Hpage)
    as (user & y & fb & yrs & _ & _ & Hfb & _ & _ & ->).
  cbn [bookings_ctx BookingsCtx.filtered_bookings BookingsCtx.active_tab
       BookingsCtx.pending_count BookingsCtx.approved_count
       BookingsCtx.active_count BookingsCtx.waiting_log_count
       BookingsCtx.history_count].
  cbv zeta. unfold filter_by_tab in Hfb.
  split_and!; [intros Ht ..|done]; rewrite Ht in Hfb; simpl in Hfb.
  - by injection Hfb as <-.
  - by injection Hfb as <-.
  - by injection Hfb as <-.
  - by injection Hfb as <-.
  - destruct (decide (y ≠ 0)); [|by injection Hfb as <-].
    apply filter_start_year_sublist in Hfb. by apply sublist_length.
Qed.

(** The staff member [u2] on the HISTORY tab of the sample store. *)
Lemma badge_counts_the_tab_witness :
  ∃ ctx,
    bookings_page demo 2026 (request_of "u2" [("tab", "HISTORY")]) =
      Ok (TemplateResponse "bookings.html" ctx)
    ∧ BookingsCtx.active_tab ctx = "HISTORY"
    ∧ (length (BookingsCtx.filtered_bookings ctx)
       ≤ BookingsCtx.history_count ctx)%nat.
Proof.
  eexists. split; [vm_compute; reflexivity|]. split; [reflexivity|].
  refine (proj1 (proj2 (proj2 (proj2 (proj2
    (badge_counts_the_tab demo 2026 (request_of "u2" [("tab", "HISTORY")])
       "bookings.html" _ _))))) _); vm_compute; reflexivity.
Defined.

(** X14. When a booking set has history bookings, all with readable start
    times, a non-zero year is offered in the year list exactly when the
    HISTORY tab of that year is not empty. *)
Theorem year_list_matches_history_tab `{Builtins} (bookings : list Enhanced.t)
    (logged : gset string) (now_year y : Z) :
  well_dated bookings →
  (∃ b, b ∈ bookings ∧ in_history b) →
  y ≠ 0 →
  ∃ yrs filtered,
    history_years bookings now_year = Ok yrs
    ∧ filter_by_tab bookings "HISTORY" logged (Some y) = Ok filtered
    ∧ (y ∈ yrs ↔ filtered ≠ []).
Proof.
  intros Hwd (b0 & Hb0 & Hh0) Hy.
  destruct (history_years_ok bookings now_year Hwd) as (ys & _ & Hyrs & Hmem).
  eexists _, (history_spec bookings (Some y)). split; [exact Hyrs|]. split.
  { unfold filter_by_tab. simpl. rewrite decide_True by done.
    rewrite filter_start_year_ok by by apply well_dated_history.
    f_equal. apply (filter_history_spec _ (Some y)). }
  assert (Hys : sorted_reverse ys ≠ []).
  { rewrite sorted_reverse_nil. destruct (Hwd b0 Hb0 Hh0) as [y0 Hy0].
    intros ->. assert (y0 ∈ (∅ : gset Z)) by (apply Hmem; by exists b0).
    set_solver. }
  assert (Hin : y ∈ match sorted_reverse ys with
                    | [] => [now_year]
                    | _ :: _ => sorted_reverse ys
                    end ↔ y ∈ ys).
  { destruct (sorted_reverse ys) eqn:Hs; [done|].
    by rewrite <- Hs, sorted_reverse_elem_of. }
  rewrite Hin, Hmem. unfold history_spec. split.
  - intros (b & Hb & Hh & Hyb) Hnil.
    assert (b ∈ filter (λ b, in_history b ∧ year_allows (Some y) b) bookings)
      as Hin' by (by apply list_elem_of_filter).
    rewrite Hnil in Hin'. by apply elem_of_nil in Hin'.
  - intros Hne.
    destruct (filter (λ b, in_history b ∧ year_allows (Some y) b) bookings)
      as [|b l] eqn:Hf; [done|].
    assert (b ∈ filter (λ b, in_history b ∧ year_allows (Some y) b) bookings)
      as [[? ?] ?]%list_elem_of_filter
      by (rewrite Hf; apply elem_of_cons; by left).
    by exists b.
Qed.

(** The years 2020 and 2024 over the sample store. *)
Lemma year_list_matches_history_tab_witness :
  ∃ yrs filtered,
    history_years (enhance demo <$> demo_bookings) 2026 = Ok yrs
    ∧ filter_by_tab (enhance demo <$> demo_bookings) "HISTORY"
        (logged_ids_of (logs demo)) (Some 2020) = Ok filtered
    ∧ (2020 ∈ yrs ↔ filtered ≠ []).
Proof.
  apply (year_list_matches_history_tab (enhance demo <$> demo_bookings)
           (logged_ids_of (logs demo)) 2026 2020).
  - well_dated_by_eval.
  - eexists. split; [apply elem_of_cons; left; reflexivity|].
    vm_compute. apply elem_of_cons. by left.
  - done.
Defined.

(** ** Booking creation *)

Lemma visible_after_create (db : DataStore) (b : Booking.t) (user : User.t) :
  visible_bookings (create_booking db b).2 user
  = visible_bookings db user
    ++ (if decide (User.role user = STAFF ∨ User.role user = ADMIN
                   ∨ Booking.userId b = User.id user)
        then [b] else []).
Proof.
  unfold visible_bookings, create_booking. simpl.
  destruct (decide (User.role user = STAFF ∨ User.role user = ADMIN)) as [Hr|Hr].
  - rewrite decide_True by tauto. done.
  - rewrite filter_app, filter_cons, filter_nil.
    destruct (decide (Booking.userId b = User.id user)) as [Ho|Ho].
    + by rewrite decide_True by tauto.
    + by rewrite decide_False by tauto.
Qed.

(** X15. Creating a booking checks nothing and changes only the booking
    list: afterwards the bookings page of a user shows the bookings it showed
    before, followed by the new one when the user is staff, an administrator
    or the user the booking names, and by nothing otherwise.  A booking naming
    an equipment the store does not hold is shown with the name [Unknown] and
    an empty code. *)
Theorem create_booking_then_page `{Builtins} (db : DataStore) (b : Booking.t)
    (now_year : Z) (request : Request) (user : User.t) (y : Z) :
  get_current_user db request = Some user →
  selected_year_of request now_year = Ok y →
  well_dated (enhance db <$> visible_bookings (create_booking db b).2 user) →
  ∃ ctx,
    get_current_user (create_booking db b).2 request = Some user
    ∧ bookings_page (create_booking db b).2 now_year request
      = Ok (TemplateResponse "bookings.html" ctx)
    ∧ BookingsCtx.bookings ctx
      = (enhance db <$> visible_bookings db user)
        ++ (if decide (User.role user = STAFF ∨ User.role user = ADMIN
                       ∨ Booking.userId b = User.id user)
            then [enhance db b] else [])
    ∧ ((∀ e, e ∈ equipment db → Equipment.id e ≠ Booking.equipmentId b) →
       Enhanced.equipmentName (enhance db b) = "Unknown"
       ∧ Enhanced.equipmentCode (enhance db b) = "").
Proof.
  intros Hu Hy Hwd.
  assert (Hu' : get_current_user (create_booking db b).2 request = Some user)
    by done.
  assert (Henh : enhance (create_booking db b).2 = enhance db) by done.
  rewrite <- Henh in Hwd.
  destruct (bookings_page_ok _ now_year request user y Hu' Hy Hwd)
    as (fb & yrs & _ & _ & Hpage).
  eexists. split_and!; [done | exact Hpage | |].
  - cbn [bookings_ctx BookingsCtx.bookings].
    rewrite Henh, visible_after_create, fmap_app. f_equal. by case_decide.
  - intros Hnone. unfold enhance.
    destruct (lookups_find_first_aux db (Booking.equipmentId b)) as [_ He].
    destruct (get_equipment db (Booking.equipmentId b)) as [e|]; [|done].
    destruct He as (l1 & l2 & Hl & Hid & _). destruct (Hnone e); [|done].
    rewrite Hl. apply elem_of_app. right. apply elem_of_cons. by left.
Qed.

(** The student [u3] books an equipment the seeded store does not hold. *)
Lemma create_booking_then_page_witness :
  ∃ ctx,
    bookings_page
      (create_booking demo
         (Booking.mk "b9" "u3" "e404" "2026-01-10T08:00:00"
                     "2026-01-10T09:00:00" PENDING)).2
      2026 (request_of "u3" []) = Ok (TemplateResponse "bookings.html" ctx)
    ∧ (Enhanced.equipmentName <$> BookingsCtx.bookings ctx)
      = ["Kính Hiển Vi Điện Tử Olympus CX23"; "Máy Ly Tâm Lạnh Hettich";
         "Unknown"].
Proof.
  destruct (create_booking_then_page demo
              (Booking.mk "b9" "u3" "e404" "2026-01-10T08:00:00"
                          "2026-01-10T09:00:00" PENDING)
              2026 (request_of "u3" [])
              (User.mk "u3" "Lê Văn Sinh Viên" STUDENT "Lớp KTPM" 0 false "123@")
              2026)
    as (ctx & _ & Hpage & Hall & _); [vm_compute; reflexivity ..| |].
  - well_dated_by_eval.
  - exists ctx. split; [exact Hpage|]. rewrite Hall. vm_compute. reflexivity.
Defined.

(** ** JSON projections *)

(** X16. The four read-only API routes answer with data or with
    [Unauthorized], never with a redirect: [/api/me] and [/api/equipment]
    answer any logged-in user, [/api/users] and [/api/usage-logs] answer
    staff and administrators only, so a logged-in student gets
    [Unauthorized] there; what [/api/users] hands out is the whole user
    list, stored passwords included. *)
Theorem api_access (db : DataStore) (request : Request) :
  (api_me db request
   = match get_current_user db request with
     | Some u => ApiData u
     | None => ApiUnauthorized
     end)
  ∧ (api_equipment_list db request
     = match get_current_user db request with
       | Some _ => ApiData (equipment db)
       | None => ApiUnauthorized
       end)
  ∧ (api_users db request
     = match get_current_user db request with
       | Some u => if decide (User.role u = STAFF ∨ User.role u = ADMIN)
                   then ApiData (users db) else ApiUnauthorized
       | None => ApiUnauthorized
       end)
  ∧ (api_usage_logs db request
     = match get_current_user db request with
       | Some u => if decide (User.role u = STAFF ∨ User.role u = ADMIN)
                   then ApiData (logs db) else ApiUnauthorized
       | None => ApiUnauthorized
       end)
  ∧ (∀ data, api_users db request = ApiData data →
       ∀ u, u ∈ users db →
            ∃ d, d ∈ data ∧ User.id d = User.id u
                 ∧ User.password d = User.password u).
Proof.
  assert (Hstaff : ∀ A (x : A),
    match require_staff db request with
    | Some _ => ApiUnauthorized
    | None => ApiData x
    end
    = match get_current_user db request with
      | Some u => if decide (User.role u = STAFF ∨ User.role u = ADMIN)
                  then ApiData x else ApiUnauthorized
      | None => ApiUnauthorized
      end).
  { intros A x. unfold require_staff.
    destruct (get_current_user db request) as [u|]; [|done].
    destruct (decide (UserRole_value (User.role u) ∉ ["ADMIN"; "STAFF"]))
      as [Hr|Hr]; rewrite role_in_staff_admin in Hr.
    - by rewrite decide_False.
    - apply dec_stable in Hr. by rewrite decide_True. }
  split_and!.
  - done.
  - unfold api_equipment_list, require_login.
    by destruct (get_current_user db request).
  - apply Hstaff.
  - apply Hstaff.
  - unfold api_users. destruct (require_staff db request); [done|].
    intros data [= <-] u Hu. by exists u.
Qed.

(** ** Inventory sessions *)

Lemma has_id_spec (session_id : string) (s : jvalue) :
  has_id session_id s
  ↔ ∃ d, s = JDict d ∧ d !! "id" = Some (JString session_id).
Proof.
  unfold has_id, session_get. split.
  - destruct s as [| | | | |d]; try done.
    destruct (d !! "id") as [[| | |sid| |]|] eqn:Hid; try done.
    intros ->%bool_decide_unpack. by exists d.
  - intros (d & -> & ->). by apply bool_decide_pack.
Qed.

Lemma length_filter_split {A} (P : A → Prop) `{!∀ x, Decision (P x)}
    (l : list A) :
  length l = (length (filter P l) + length (filter (λ x, ¬ P x) l))%nat.
Proof.
  induction l as [|x l IH]; [done|]. rewrite !filter_cons.
  destruct (decide (P x)) as [HP|HP].
  - rewrite decide_False by tauto. simpl. lia.
  - rewrite decide_True by done. simpl. lia.
Qed.

Lemma sessions_of_ensure (app : App) :
  sessions_of (_ensure_inventory_store app) = sessions_of app
  ∧ inventorySessions (_ensure_inventory_store app) = Some (sessions_of app)
  ∧ store (_ensure_inventory_store app) = store app
  ∧ home_config (_ensure_inventory_store app) = home_config app.
Proof.
  unfold sessions_of, _ensure_inventory_store.
  destruct (inventorySessions app) as [l|] eqn:Hl; simpl; by rewrite ?Hl.
Qed.

(** X17. A request that does not pass [require_staff] gets [Unauthorized]
    from each of the four inventory routes, and none of them touches the
    application state. *)
Theorem inventory_needs_staff `{Builtins} (app : App) (request : Request)
    (year : option Z) (session_id : string) (payload : jvalue)
    (r : RedirectResponse) :
  require_staff (store app) request = Some r →
  api_inventory_sessions app request year = (Unauthorized, app)
  ∧ api_inventory_create_session app request payload = (Unauthorized, app)
  ∧ api_inventory_update_session app request session_id payload
    = (inr Unauthorized, app)
  ∧ api_inventory_delete_session app request session_id = (Unauthorized, app).
Proof.
  intros Hr. unfold api_inventory_sessions, api_inventory_create_session,
    api_inventory_update_session, api_inventory_delete_session.
  by rewrite Hr.
Qed.

(** The student [u3] trying to delete a session. *)
Lemma inventory_needs_staff_witness :
  api_inventory_sessions demo_app (request_of "u3" []) None
    = (Unauthorized, demo_app)
  ∧ api_inventory_create_session demo_app (request_of "u3" []) JNull
    = (Unauthorized, demo_app)
  ∧ api_inventory_update_session demo_app (request_of "u3" []) "s1" JNull
    = (inr Unauthorized, demo_app)
  ∧ api_inventory_delete_session demo_app (request_of "u3" []) "s1"
    = (Unauthorized, demo_app).
Proof.
  apply (inventory_needs_staff demo_app (request_of "u3" []) None "s1" JNull
           (redirect_to "/")).
  vm_compute. reflexivity.
Defined.

(** X18. What staff post to the inventory comes back: after a creation the
    unfiltered listing is the earlier listing followed by the posted
    document, whatever JSON value that document is, and listing changes
    nothing further. *)
Theorem inventory_create_then_list `{Builtins} (app : App)
    (request request' : Request) (payload : jvalue) :
  require_staff (store app) request = None →
  require_staff (store app) request' = None →
  ∃ app',
    api_inventory_create_session app request payload
      = (SessionCreated payload, app')
    ∧ store app' = store app
    ∧ home_config app' = home_config app
    ∧ api_inventory_sessions app' request' None
      = (SessionsData (sessions_of app ++ [payload]), app').
Proof.
  intros Hr Hr'. unfold api_inventory_create_session. rewrite Hr.
  destruct (sessions_of_ensure app) as (Hs & _ & Hst & Hh).
  eexists. split; [reflexivity|]. fold (sessions_of (_ensure_inventory_store app)).
  rewrite Hs. split_and!; [done | done |].
  unfold api_inventory_sessions. simpl. rewrite Hst, Hr'. done.
Qed.

(** The staff member [u2] posts a bare number. *)
Lemma inventory_create_then_list_witness :
  ∃ app',
    api_inventory_create_session seed_app (request_of "u2" []) (JInt 7)
      = (SessionCreated (JInt 7), app')
    ∧ api_inventory_sessions app' (request_of "adminctump" []) None
      = (SessionsData [JInt 7], app').
Proof.
  destruct (inventory_create_then_list seed_app (request_of "u2" [])
              (request_of "adminctump" []) (JInt 7))
    as (app' & Hc & _ & _ & Hl); [vm_compute; reflexivity ..|].
  exists app'. split; [exact Hc | exact Hl].
Defined.

(** X19. A deletion by staff removes exactly the JSON objects whose [id] is
    the string given, keeps every other session in order (also the values
    that are no objects or whose [id] is no string), and reports how many it
    removed; deleting the same id again removes nothing. *)
Theorem inventory_delete_spec (app : App) (request : Request)
    (session_id : string) :
  require_staff (store app) request = None →
  ∃ app',
    api_inventory_delete_session app request session_id
      = (SessionDeleted
           (Z.of_nat (length (filter (λ s, has_id session_id s)
                                     (sessions_of app)))), app')
    ∧ inventorySessions app'
      = Some (filter (λ s, ¬ has_id session_id s) (sessions_of app))
    ∧ (∀ s, s ∈ sessions_of app' ↔
            s ∈ sessions_of app
            ∧ ¬ ∃ d, s = JDict d ∧ d !! "id" = Some (JString session_id))
    ∧ sessions_of app' `sublist_of` sessions_of app
    ∧ store app' = store app
    ∧ api_inventory_delete_session app' request session_id
      = (SessionDeleted 0, app').
Proof.
  intros Hr. unfold api_inventory_delete_session. rewrite Hr.
  destruct (sessions_of_ensure app) as (Hs & _ & Hst & Hh).
  fold (sessions_of (_ensure_inventory_store app)). rewrite Hs.
  eexists. split_and!.
  - f_equal. f_equal.
    rewrite (length_filter_split (λ s, has_id session_id s) (sessions_of app)).
    lia.
  - done.
  - intros s. unfold sessions_of at 1. simpl.
    rewrite list_elem_of_filter, has_id_spec. tauto.
  - unfold sessions_of at 1. simpl. apply sublist_filter.
  - done.
  - simpl. rewrite Hst, Hr. unfold set_sessions, _ensure_inventory_store. simpl.
    assert (Hidem : filter (λ s, ¬ has_id session_id s)
                      (filter (λ s, ¬ has_id session_id s) (sessions_of app))
                    = filter (λ s, ¬ has_id session_id s) (sessions_of app)).
    { rewrite list_filter_filter. apply list_filter_iff. tauto. }
    rewrite Hidem. f_equal. f_equal. lia.
Qed.

(** The staff member [u2] deletes [s1] from the sample sessions. *)
Lemma inventory_delete_spec_witness :
  ∃ app',
    api_inventory_delete_session demo_app (request_of "u2" []) "s1"
      = (SessionDeleted 1, app')
    ∧ inventorySessions app' = Some [JString "stray"; session_b].
Proof.
  destruct (inventory_delete_spec demo_app (request_of "u2" []) "s1")
    as (app' & Hd & Hs & _); [vm_compute; reflexivity|].
  exists app'. split; [exact Hd | rewrite Hs; vm_compute; reflexivity].
Defined.

Lemma merged_has_id (session_id : string) (p d : gmap string jvalue) :
  has_id session_id (JDict d) = true →
  merged session_id p (JDict d) = JDict (p ∪ d).
Proof. intros Hid. unfold merged. by rewrite Hid. Qed.

Lemma merged_no_id (session_id : string) (p : gmap string jvalue) (s : jvalue) :
  has_id session_id s = false → merged session_id p s = s.
Proof. intros Hid. unfold merged. destruct s; try done. by rewrite Hid. Qed.

Lemma update_sessions_dict (session_id : string) (p : gmap string jvalue)
    (sessions : list jvalue) :
  update_sessions session_id (JDict p) sessions
  = inr (merged session_id p <$> sessions,
         bool_decide (Exists (λ s, has_id session_id s) sessions)).
Proof.
  induction sessions as [|s sessions IH]; [done|].
  cbn [update_sessions]. rewrite IH, fmap_cons.
  destruct (has_id session_id s) eqn:Hid.
  - assert (∃ d, s = JDict d) as [d ->].
    { apply Is_true_true, has_id_spec in Hid as (d & -> & _). by exists d. }
    rewrite merged_has_id by done. do 2 f_equal. symmetry.
    apply bool_decide_eq_true. apply Exists_cons. left. by apply Is_true_true.
  - rewrite merged_no_id by done. do 2 f_equal.
    apply bool_decide_ext. rewrite Exists_cons, Hid. simpl. tauto.
Qed.

(** X20. An update by staff with a JSON object as payload keeps the number
    and the order of the sessions, rewrites exactly the objects whose [id] is
    the string given and answers whether there was one.  In a rewritten
    session every key of the payload carries the payload's value and every
    other key its old value, so a payload with an [id] of its own renames the
    session. *)
Theorem inventory_update_spec (app : App) (request : Request)
    (session_id : string) (p : gmap string jvalue) :
  require_staff (store app) request = None →
  ∃ app',
    api_inventory_update_session app request session_id (JDict p)
      = (inr (SessionUpdated
                (bool_decide (Exists (λ s, has_id session_id s)
                                     (sessions_of app)))), app')
    ∧ inventorySessions app'
      = Some (merged session_id p <$> sessions_of app)
    ∧ length (sessions_of app') = length (sessions_of app)
    ∧ store app' = store app
    ∧ (∀ s, ¬ has_id session_id s → merged session_id p s = s)
    ∧ (∀ s k, has_id session_id s →
         session_get k (merged session_id p s)
         = match p !! k with
           | Some v => Some v
           | None => session_get k s
           end).
Proof.
  intros Hr. unfold api_inventory_update_session. rewrite Hr.
  destruct (sessions_of_ensure app) as (Hs & _ & Hst & Hh).
  fold (sessions_of (_ensure_inventory_store app)). rewrite Hs.
  rewrite update_sessions_dict. eexists. split_and!; [done | done | | done | |].
  - unfold sessions_of at 1. simpl. by rewrite length_fmap.
  - intros s Hno. apply merged_no_id. by destruct (has_id session_id s).
  - intros s k Hid. apply has_id_spec in Hid as Hd. destruct Hd as (d & -> & _).
    rewrite merged_has_id by by apply Is_true_true. simpl.
    rewrite lookup_union. by destruct (p !! k), (d !! k).
Qed.

(** The staff member [u2] renames the session [s1] to [s7]. *)
Lemma inventory_update_spec_witness :
  ∃ app',
    api_inventory_update_session demo_app (request_of "u2" []) "s1"
      (JDict {[ "id" := JString "s7" ]})
      = (inr (SessionUpdated true), app')
    ∧ (session_get "id" <$> sessions_of app')
      = [Some (JString "s7"); None; Some (JString "s2")]
    ∧ (session_get "note" <$> sessions_of app')
      = [Some (JString "first"); None; None].
Proof.
  destruct (inventory_update_spec demo_app (request_of "u2" []) "s1"
              {[ "id" := JString "s7" ]})
    as (app' & Hu & Hs & _); [vm_compute; reflexivity|].
  exists app'. split; [exact Hu|]. unfold sessions_of. rewrite Hs.
  split; vm_compute; reflexivity.
Defined.

Lemma update_sessions_other (session_id : string) (payload : jvalue)
    (sessions : list jvalue) :
  ¬ is_dict payload →
  update_sessions session_id payload sessions
  = if bool_decide (Exists (λ s, has_id session_id s) sessions)
    then inl TypeError else inr (sessions, false).
Proof.
  intros Hp. induction sessions as [|s sessions IH]; [done|].
  cbn [update_sessions]. destruct (has_id session_id s) eqn:Hid.
  - rewrite bool_decide_eq_true_2
      by (apply Exists_cons; left; by apply Is_true_true).
    destruct s; try done. by destruct payload.
  - rewrite IH.
    rewrite (bool_decide_ext (Exists _ (s :: sessions))
                             (Exists (λ s, has_id session_id s) sessions)).
    + by destruct (bool_decide _).
    + rewrite Exists_cons, Hid. simpl. tauto.
Qed.

(** X21. An update by staff whose payload is not a JSON object fails with
    [TypeError] exactly when some session has the id given, and answers
    [updated: false] otherwise; either way the stored sessions are what they
    were. *)
Theorem inventory_update_not_object (app : App) (request : Request)
    (session_id : string) (payload : jvalue) :
  require_staff (store app) request = None →
  ¬ is_dict payload →
  ∃ app',
    api_inventory_update_session app request session_id payload
      = (if bool_decide (Exists (λ s, has_id session_id s) (sessions_of app))
         then inl TypeError else inr (SessionUpdated false), app')
    ∧ inventorySessions app' = Some (sessions_of app)
    ∧ store app' = store app
    ∧ home_config app' = home_config app.
Proof.
  intros Hr Hp. unfold api_inventory_update_session. rewrite Hr.
  destruct (sessions_of_ensure app) as (Hs & Hi & Hst & Hh).
  fold (sessions_of (_ensure_inventory_store app)). rewrite Hs.
  rewrite update_sessions_other by done.
  destruct (bool_decide _); eexists; split_and!; try done.
Qed.

(** The staff member [u2] sends a JSON list for [s2], then for [s404]. *)
Lemma inventory_update_not_object_witness :
  (api_inventory_update_session demo_app (request_of "u2" []) "s2"
     (JList [JInt 1])).1 = inl TypeError
  ∧ (api_inventory_update_session demo_app (request_of "u2" []) "s404"
       (JList [JInt 1])).1 = inr (SessionUpdated false).
Proof.
  split.
  - destruct (inventory_update_not_object demo_app (request_of "u2" []) "s2"
                (JList [JInt 1])) as (app' & -> & _);
      [vm_compute; reflexivity | by intros [] | vm_compute; reflexivity].
  - destruct (inventory_update_not_object demo_app (request_of "u2" []) "s404"
                (JList [JInt 1])) as (app' & -> & _);
      [vm_compute; reflexivity | by intros [] | vm_compute; reflexivity].
Defined.

(** X22. The listing of a year never fails: it answers, in stored order,
    exactly the JSON objects whose [date] is a non-empty string that
    [fromisoformat] reads with that year; a session with no date, a date
    that is no string or an unreadable date is left out.  Without a year
    every session is listed. *)
Theorem inventory_sessions_of_year `{Builtins} (app : App) (request : Request)
    (year : option Z) :
  require_staff (store app) request = None →
  ∃ data app',
    api_inventory_sessions app request year = (SessionsData data, app')
    ∧ sessions_of app' = sessions_of app
    ∧ store app' = store app
    ∧ data `sublist_of` sessions_of app
    ∧ (year = None → data = sessions_of app)
    ∧ (∀ y, year = Some y →
         ∀ s, s ∈ data
              ↔ s ∈ sessions_of app
                ∧ ∃ d date, s = JDict d ∧ d !! "date" = Some (JString date)
                            ∧ date ≠ ""
                            ∧ fromisoformat_year date = Some y).
Proof.
  intros Hr. unfold api_inventory_sessions. rewrite Hr.
  destruct (sessions_of_ensure app) as (Hs & Hi & Hst & Hh).
  fold (sessions_of (_ensure_inventory_store app)). rewrite Hs.
  eexists _, _. split; [reflexivity|]. split_and!; [done | done | | |].
  - destruct year; [apply sublist_filter | done].
  - by intros ->.
  - intros y -> s. rewrite list_elem_of_filter. unfold session_year, session_get.
    split.
    + intros [Hy Hin]. split; [done|].
      destruct s as [| | | | |d]; try done.
      destruct (d !! "date") as [[| | |date| |]|] eqn:Hd; try done.
      case_decide; [done|]. by exists d, date.
    + intros [Hin (d & date & -> & -> & Hne & Hy)]. split; [|done].
      by rewrite decide_False.
Qed.

(** The sample sessions of 2024. *)
Lemma inventory_sessions_of_year_witness :
  ∃ data app',
    api_inventory_sessions demo_app (request_of "u2" []) (Some 2024)
      = (SessionsData data, app')
    ∧ data = [session_a].
Proof.
  destruct (inventory_sessions_of_year demo_app (request_of "u2" [])
              (Some 2024)) as (data & app' & Hl & _);
    [vm_compute; reflexivity|].
  exists data, app'. split; [exact Hl|].
  assert (Hd : (SessionsData data, app')
               = api_inventory_sessions demo_app (request_of "u2" [])
                   (Some 2024)) by done.
  vm_compute in Hd. by injection Hd as -> _.
Defined.

(** ** Guarded pages *)

Lemma verdict_guarded_login {A} (db : DataStore) (request : Request)
    (template title : string) (x : A) :
  verdict (guarded (require_login db request)
                   (render db request template title x))
  = expected LoggedIn template (get_current_user db request).
Proof.
  unfold require_login. by destruct (get_current_user db request).
Qed.

Lemma verdict_guarded_staff {A} (db : DataStore) (request : Request)
    (template title : string) (x : A) :
  verdict (guarded (require_staff db request)
                   (render db request template title x))
  = expected StaffOnly template (get_current_user db request).
Proof.
  unfold require_staff. destruct (get_current_user db request) as [u|]; [|done].
  simpl. destruct (decide (UserRole_value (User.role u) ∉ ["ADMIN"; "STAFF"]))
    as [Hr|Hr]; rewrite role_in_staff_admin in Hr.
  - by rewrite decide_False.
  - apply dec_stable in Hr. by rewrite decide_True.
Qed.

Lemma verdict_guarded_admin {A} (db : DataStore) (request : Request)
    (template title : string) (x : A) :
  verdict (guarded (require_admin db request)
                   (render db request template title x))
  = expected AdminOnly template (get_current_user db request).
Proof.
  unfold require_admin. destruct (get_current_user db request) as [u|]; [|done].
  simpl. destruct (decide (UserRole_value (User.role u) ≠ "ADMIN")) as [Hr|Hr].
  - rewrite decide_False; [done|]. intros Ha. by rewrite Ha in Hr.
  - apply dec_stable in Hr. apply (inj UserRole_value _ ADMIN) in Hr.
    by rewrite decide_True.
Qed.

(** X23. The access level of every plain page: the QR scanner is public;
    layout, assistant and profile ask for a login; dashboard, the two
    maintenance pages, the usage logs and the inventory ask for STAFF or
    ADMIN; the admin panel asks for ADMIN.  A page answers its template to
    whom its level admits, a redirect to [/login] to an anonymous request
    and a redirect to [/] to a logged-in user below its level; the login
    page does the opposite and sends a logged-in user to [/]. *)
Theorem page_access (app : App) (request : Request) :
  let db := store app in
  let user := get_current_user db request in
  verdict (qr_scan_page db request) = expected Public "qr_scanner.html" user
  ∧ verdict (qr_scanner_alias db request)
    = expected Public "qr_scanner.html" user
  ∧ verdict (layout_page db request) = expected LoggedIn "layout.html" user
  ∧ verdict (ai_assistant_page db request)
    = expected LoggedIn "assistant.html" user
  ∧ verdict (user_profile_page db request)
    = expected LoggedIn "profile.html" user
  ∧ verdict (dashboard_page db request)
    = expected StaffOnly "dashboard.html" user
  ∧ verdict (maintenance db request)
    = expected StaffOnly "maintenance.html" user
  ∧ verdict (maintenance_list_page db request)
    = expected StaffOnly "maintenance_list.html" user
  ∧ verdict (usage_log_list_page db request)
    = expected StaffOnly "usage_logs.html" user
  ∧ verdict (inventory_list_page app request)
    = expected StaffOnly "inventory.html" user
  ∧ verdict (equipment_stats_page db request)
    = expected StaffOnly "equipment_stats.html" user
  ∧ verdict (admin_panel db request) = expected AdminOnly "admin.html" user
  ∧ verdict (admin_panel_alias db request)
    = expected AdminOnly "admin.html" user
  ∧ verdict (login_page db request)
    = match user with
      | Some _ => RedirectedTo "/"
      | None => Rendered "login.html"
      end
  ∧ (∀ level template,
       expected level template user = Rendered template ↔ admitted level user).
Proof.
  cbv zeta. split_and!;
    try apply verdict_guarded_login; try apply verdict_guarded_staff;
    try apply verdict_guarded_admin; try done.
  - pose proof (verdict_guarded_staff (store app) request
                  "equipment_stats.html" "" ()) as Hs.
    unfold equipment_stats_page, guarded in *.
    by destruct (require_staff (store app) request).
  - unfold login_page. by destruct (get_current_user (store app) request).
  - intros level template.
    destruct level, (get_current_user (store app) request) as [u|]; simpl;
      try done; case_decide; split; done.
Qed.

(** X24. The pages that show store data show all of it and only to whom
    they admit: the profile page shows the profile of the user the cookie
    names and of nobody else, the usage-log page every usage log, the
    inventory page every session (none before the first one is posted) and
    the admin panel every user. *)
Theorem page_contents (app : App) (request : Request) :
  (∀ template ctx,
     user_profile_page (store app) request = TemplateResponse template ctx →
     PageCtx.extra ctx = get_current_user (store app) request
     ∧ is_Some (PageCtx.extra ctx))
  ∧ (∀ template ctx,
       usage_log_list_page (store app) request = TemplateResponse template ctx →
       PageCtx.extra ctx = logs (store app))
  ∧ (∀ template ctx,
       inventory_list_page app request = TemplateResponse template ctx →
       PageCtx.extra ctx = default [] (inventorySessions app))
  ∧ (∀ template ctx,
       admin_panel (store app) request = TemplateResponse template ctx →
       PageCtx.extra ctx = users (store app)
       ∧ ∃ u, get_current_user (store app) request = Some u
              ∧ User.role u = ADMIN).
Proof.
  split_and!; intros template ctx.
  - unfold user_profile_page, guarded.
    destruct (require_login (store app) request) eqn:Hl; [done|].
    intros [= _ <-]. split; [done|]. simpl. by apply require_login_None.
  - unfold usage_log_list_page, guarded.
    destruct (require_staff (store app) request); [done|]. by intros [= _ <-].
  - unfold inventory_list_page, guarded.
    destruct (require_staff (store app) request); [done|]. by intros [= _ <-].
  - unfold admin_panel, guarded.
    destruct (require_admin (store app) request) eqn:Ha; [done|].
    intros [= _ <-]. split; [done|]. by apply require_admin_None.
Qed.
